(** * GDJS behavior code generator and exporter helper

    A shallow embedding of
      GDJS/GDJS/Events/CodeGeneration/BehaviorCodeGenerator.cpp
      GDJS/GDJS/IDE/ExporterHelper.cpp
    and the properties of the generated text, of the include list and of
    the exported files that follow from the code. *)

From Stdlib Require Import String Ascii List Arith Lia Bool ZArith DecimalString.
From stdpp Require Import gmap strings list.
From Equations Require Import Equations.

Local Open Scope string_scope.
Local Open Scope list_scope.

(** ** gd::String *)

Module GdString.

(** The double quote character, written by its code so that templates can
    mention it. *)
Definition dquote : string := String (ascii_of_nat 34) EmptyString.

(** [s.find(needle)]: position of the first occurrence, [None] for npos. *)
Definition find (s needle : string) : option nat := String.index 0 needle s.

(** [s.find(needle) != gd::String::npos]. *)
Definition contains (s needle : string) : bool :=
  match find s needle with Some _ => true | None => false end.

(** Whether the character [c] is one of the characters of [s]. *)
Fixpoint occurs (c : ascii) (s : string) : bool :=
  match s with
  | EmptyString => false
  | String d s' => Ascii.eqb c d || occurs c s'
  end.

(** One left-to-right scan of [s]: [skip] characters of a token just
    replaced are still to be passed over; at every other position the token
    either starts there, and is replaced, or the character is copied. *)
Fixpoint replace_scan (search replacement : string) (skip : nat) (s : string)
  : string :=
  match s with
  | EmptyString => EmptyString
  | String c rest =>
      match skip with
      | S k => replace_scan search replacement k rest
      | O =>
          if String.prefix search s
          then replacement +:+
               replace_scan search replacement (String.length search - 1) rest
          else String c (replace_scan search replacement 0 rest)
      end
  end.

(** Modelled from the spec: gd::String::FindAndReplace is declared in GDCore,
    outside the two files studied here.  The spec's template engine replaces
    every occurrence of a token by its paired text in one linear scan that
    never looks again at the text it has just written.  An empty token
    matches nothing. *)
Definition FindAndReplace (self search replacement : string) : string :=
  match search with
  | EmptyString => self
  | _ => replace_scan search replacement 0 self
  end.

(** The call written as in the source, so that calls can follow one
    another. *)
Notation "self '.FindAndReplace(' search ',' replacement ')'" :=
  (FindAndReplace self search replacement)
  (at level 1, left associativity, search at level 200, replacement at level 200,
   format "self '//' '.FindAndReplace(' search ','  replacement ')'").

(** The calls [s.FindAndReplace(t1, r1).FindAndReplace(t2, r2)...] with their
    arguments in a list. *)
Fixpoint chain (pairs : list (string * string)) (s : string) : string :=
  match pairs with
  | [] => s
  | (tok, rep) :: rest => chain rest (FindAndReplace s tok rep)
  end.

(** A text in pieces: a literal of a template, a token still to be replaced,
    or a text that a call has put in. *)
Inductive piece :=
| Lit (text : string)
| Tok (token : string)
| Raw (text : string).

Definition piece_text (p : piece) : string :=
  match p with Lit s | Tok s | Raw s => s end.

Fixpoint flatten (ps : list piece) : string :=
  match ps with
  | [] => EmptyString
  | p :: rest => piece_text p +:+ flatten rest
  end.




(** What one FindAndReplace call does to a piece of the text. *)
Definition step (tok rep : string) (p : piece) : piece :=
  match p with
  | Lit s => Lit s
  | Tok t => if String.eqb t tok then Raw rep else Tok t
  | Raw s => Raw (FindAndReplace s tok rep)
  end.

Fixpoint chain_pieces (pairs : list (string * string)) (ps : list piece)
  : list piece :=
  match pairs with
  | [] => ps
  | (tok, rep) :: rest => chain_pieces rest (map (step tok rep) ps)
  end.

(** What the whole chain does to a piece: a token is replaced at its own
    step and the text put there goes through the steps that follow. *)
Fixpoint expand (pairs : list (string * string)) (p : piece) : piece :=
  match pairs with
  | [] => p
  | (tok, rep) :: rest =>
      match p with
      | Lit s => Lit s
      | Tok t => if String.eqb t tok then Raw (chain rest rep) else expand rest (Tok t)
      | Raw s => Raw (chain pairs s)
      end
  end.

(** The shape of a piece: what a literal or a pending token is, and nothing
    of a text already substituted. *)
Inductive shape :=
| SLit (text : string)
| STok (token : string)
| SRaw.

Definition shape_of (p : piece) : shape :=
  match p with Lit s => SLit s | Tok t => STok t | Raw _ => SRaw end.

Definition step_shape (tok : string) (sh : shape) : shape :=
  match sh with
  | STok t => if String.eqb t tok then SRaw else STok t
  | _ => sh
  end.

Definition first_sep (tok s : string) : bool :=
  match s with
  | EmptyString => false
  | String c _ => negb (occurs c tok)
  end.

Fixpoint last_sep (tok s : string) : bool :=
  match s with
  | EmptyString => false
  | String c EmptyString => negb (occurs c tok)
  | String _ s' => last_sep tok s'
  end.

(** A literal is delimited for [tok] when it starts and ends with a
    character that is not in [tok] and does not contain [tok]; a pending
    token must not contain [tok] unless it is [tok]. *)
Definition shape_ok (tok : string) (sh : shape) : bool :=
  match sh with
  | SLit s => first_sep tok s && last_sep tok s && negb (contains s tok)
  | STok t => String.eqb t tok || negb (contains t tok)
  | SRaw => true
  end.

Definition is_lit (sh : shape) : bool :=
  match sh with SLit _ => true | _ => false end.

(** No two pieces that are not literals touch. *)
Fixpoint separated (shs : list shape) : bool :=
  match shs with
  | p :: rest =>
      match rest with
      | q :: _ => (is_lit p || is_lit q) && separated rest
      | [] => true
      end
  | [] => true
  end.

Definition step_ok (tok : string) (shs : list shape) : bool :=
  negb (String.eqb tok EmptyString) && forallb (shape_ok tok) shs && separated shs.

Fixpoint chain_ok (toks : list string) (shs : list shape) : bool :=
  match toks with
  | [] => true
  | t :: rest => step_ok t shs && chain_ok rest (map (step_shape t) shs)
  end.

(** Cutting a template into its literals and the tokens of [toks], from
    left to right. *)
Definition cons_lit (c : ascii) (ps : list piece) : list piece :=
  match ps with
  | Lit s :: rest => Lit (String c s) :: rest
  | _ => Lit (String c EmptyString) :: ps
  end.

Fixpoint token_at (toks : list string) (s : string) : option string :=
  match toks with
  | [] => None
  | t :: rest => if String.prefix t s then Some t else token_at rest s
  end.

Fixpoint tokenize_from (toks : list string) (skip : nat) (s : string) : list piece :=
  match s with
  | EmptyString => []
  | String c rest =>
      match skip with
      | S k => tokenize_from toks k rest
      | O =>
          match token_at toks s with
          | Some t => Tok t :: tokenize_from toks (String.length t - 1) rest
          | None => cons_lit c (tokenize_from toks 0 rest)
          end
      end
  end.

Definition tokenize (toks : list string) (s : string) : list piece :=
  tokenize_from toks 0 s.

(** No token of [toks] occurs in [s]. *)
Definition token_free (toks : list string) (s : string) : bool :=
  forallb (fun t => negb (contains s t)) toks.

(** *** Facts on append, prefix and find *)

Lemma append_cons c a b : String c a +:+ b = String c (a +:+ b).
Proof. reflexivity. Qed.

Lemma append_nil_l s : EmptyString +:+ s = s.
Proof. reflexivity. Qed.

Lemma append_nil_r s : s +:+ EmptyString = s.
Proof. induction s as [|c s IH]; [reflexivity|]. rewrite append_cons, IH. reflexivity. Qed.

Lemma append_assoc a b c : (a +:+ b) +:+ c = a +:+ (b +:+ c).
Proof.
  induction a as [|x a IH]; [reflexivity|].
  rewrite !append_cons, IH. reflexivity.
Qed.

Lemma prefix_length t s : String.prefix t s = true -> String.length t <= String.length s.
Proof.
  revert t. induction s as [|c s IH]; intros [|d t]; simpl; try lia; try discriminate.
  destruct (ascii_dec d c); [|discriminate].
  intros H. apply IH in H. lia.
Qed.

Lemma occurs_cons_false c d t :
  occurs c (String d t) = false -> d <> c /\ occurs c t = false.
Proof.
  simpl. intros H. apply orb_false_iff in H as [H1 H2]. split; [|exact H2].
  intros ->. rewrite Ascii.eqb_refl in H1. discriminate.
Qed.

(** A character that is not in the token stops every match that would run
    over it. *)
Lemma prefix_app_sep tok a c b :
  occurs c tok = false ->
  String.prefix tok (a +:+ String c b) = String.prefix tok a.
Proof.
  revert tok. induction a as [|x a IH]; intros [|t tok] Hc; try reflexivity.
  - apply occurs_cons_false in Hc as [Hne _]. rewrite append_nil_l. simpl.
    destruct (ascii_dec t c); [contradiction|reflexivity].
  - apply occurs_cons_false in Hc as [_ Hc]. rewrite append_cons. simpl.
    destruct (ascii_dec t x); [|reflexivity]. apply IH, Hc.
Qed.

Lemma find_cons_None s c needle :
  find (String c s) needle = None ->
  String.prefix needle (String c s) = false /\ find s needle = None.
Proof.
  unfold find. cbn [String.index].
  destruct (String.prefix needle (String c s)); [discriminate|].
  destruct (String.index 0 needle s); [discriminate|]. auto.
Qed.

Lemma contains_cons_false s c needle :
  contains (String c s) needle = false ->
  String.prefix needle (String c s) = false /\ contains s needle = false.
Proof.
  unfold contains. destruct (find (String c s) needle) eqn:E; [discriminate|].
  intros _. apply find_cons_None in E as [E1 E2]. rewrite E2. auto.
Qed.

(** *** Facts on one scan *)

Lemma replace_scan_skip_all search replacement s :
  replace_scan search replacement (String.length s) s = EmptyString.
Proof. induction s as [|c s IH]; [reflexivity|]. simpl. exact IH. Qed.

Lemma replace_scan_no_occurrence search replacement s :
  contains s search = false -> replace_scan search replacement 0 s = s.
Proof.
  induction s as [|c s IH]; [reflexivity|]. intros H.
  apply contains_cons_false in H as [H1 H2].
  cbn [replace_scan]. rewrite H1, (IH H2). reflexivity.
Qed.

Lemma replace_scan_app_sep search replacement c a b k :
  search <> EmptyString ->
  occurs c search = false ->
  k <= String.length a ->
  replace_scan search replacement k (a +:+ String c b) =
  replace_scan search replacement k a +:+
  String c (replace_scan search replacement 0 b).
Proof.
  intros Hne Hc. revert k. induction a as [|x a IH]; intros k Hk.
  - simpl in Hk. assert (k = 0) as -> by lia. rewrite append_nil_l.
    cbn [replace_scan].
    destruct search as [|t tok]; [contradiction|].
    apply occurs_cons_false in Hc as [Hnc _]. simpl String.prefix.
    destruct (ascii_dec t c); [contradiction|reflexivity].
  - rewrite append_cons. destruct k as [|k].
    + cbn [replace_scan]. rewrite <- append_cons, (prefix_app_sep _ _ _ _ Hc).
      destruct (String.prefix search (String x a)) eqn:Hp.
      * apply prefix_length in Hp. simpl in Hp.
        rewrite IH by lia. rewrite append_assoc. reflexivity.
      * rewrite IH by lia. reflexivity.
    + cbn [replace_scan]. simpl in Hk. apply IH. lia.
Qed.

(** *** Facts on FindAndReplace *)

Lemma FindAndReplace_empty search replacement :
  FindAndReplace EmptyString search replacement = EmptyString.
Proof. destruct search; reflexivity. Qed.

(** The token alone is replaced by the text, which is not scanned again. *)
Lemma FindAndReplace_token search replacement :
  search <> EmptyString -> FindAndReplace search search replacement = replacement.
Proof.
  destruct search as [|c s]; [contradiction|]. intros _.
  unfold FindAndReplace. cbn [replace_scan].
  assert (String.prefix (String c s) (String c s) = true) as ->.
  { apply String.prefix_correct. clear. induction s as [|d s IH] in c |- *.
    - reflexivity.
    - simpl. simpl in IH. rewrite IH. reflexivity. }
  replace (String.length (String c s) - 1) with (String.length s) by (simpl; lia).
  rewrite replace_scan_skip_all.
  apply append_nil_r.
Qed.

Lemma FindAndReplace_no_occurrence s search replacement :
  contains s search = false -> FindAndReplace s search replacement = s.
Proof.
  intros H. destruct search; [reflexivity|].
  unfold FindAndReplace. apply replace_scan_no_occurrence, H.
Qed.

(** The scan of a text cut at a character that is not in the token is the
    scan of the two sides. *)
Lemma FindAndReplace_app_sep search replacement a c b :
  occurs c search = false ->
  FindAndReplace (a +:+ String c b) search replacement =
  FindAndReplace a search replacement +:+
  String c (FindAndReplace b search replacement).
Proof.
  intros Hc. destruct search as [|t tok] eqn:E; [reflexivity|].
  unfold FindAndReplace. apply replace_scan_app_sep; [discriminate|exact Hc|lia].
Qed.

Lemma FindAndReplace_sep_l search replacement c b :
  occurs c search = false ->
  FindAndReplace (String c b) search replacement =
  String c (FindAndReplace b search replacement).
Proof.
  intros Hc. rewrite <- (append_nil_l (String c b)).
  rewrite (FindAndReplace_app_sep _ _ _ _ _ Hc), FindAndReplace_empty.
  reflexivity.
Qed.

Lemma FindAndReplace_sep_r search replacement a c :
  occurs c search = false ->
  FindAndReplace (a +:+ String c EmptyString) search replacement =
  FindAndReplace a search replacement +:+ String c EmptyString.
Proof.
  intros Hc. rewrite (FindAndReplace_app_sep _ _ _ _ _ Hc), FindAndReplace_empty.
  reflexivity.
Qed.

Lemma first_sep_inv tok s :
  first_sep tok s = true -> exists c s', s = String c s' /\ occurs c tok = false.
Proof.
  destruct s as [|c s']; [discriminate|]. simpl. intros H.
  exists c, s'. split; [reflexivity|]. destruct (occurs c tok); [discriminate|reflexivity].
Qed.

Lemma last_sep_inv tok s :
  last_sep tok s = true ->
  exists a c, s = a +:+ String c EmptyString /\ occurs c tok = false.
Proof.
  induction s as [|x s IH]; [discriminate|].
  destruct s as [|y s'].
  - simpl. intros H. exists EmptyString, x. split; [reflexivity|].
    destruct (occurs x tok); [discriminate|reflexivity].
  - intros H. change (last_sep tok (String y s') = true) in H.
    destruct (IH H) as (a & c & Ha & Hc).
    exists (String x a), c. rewrite append_cons, <- Ha. auto.
Qed.

(** FindAndReplace goes through a cut when the left side ends, or the right
    side starts, with a character that is not in the token. *)
Lemma FindAndReplace_app_last_sep search replacement a b :
  last_sep search a = true ->
  FindAndReplace (a +:+ b) search replacement =
  FindAndReplace a search replacement +:+ FindAndReplace b search replacement.
Proof.
  intros H. apply last_sep_inv in H as (a' & c & -> & Hc).
  rewrite append_assoc, append_cons, append_nil_l.
  rewrite (FindAndReplace_app_sep _ _ _ _ _ Hc), (FindAndReplace_sep_r _ _ _ _ Hc).
  rewrite append_assoc. reflexivity.
Qed.

Lemma FindAndReplace_app_first_sep search replacement a b :
  first_sep search b = true ->
  FindAndReplace (a +:+ b) search replacement =
  FindAndReplace a search replacement +:+ FindAndReplace b search replacement.
Proof.
  intros H. apply first_sep_inv in H as (c & b' & -> & Hc).
  rewrite (FindAndReplace_app_sep _ _ _ _ _ Hc), (FindAndReplace_sep_l _ _ _ _ Hc).
  reflexivity.
Qed.

(** *** A chain of calls seen piece by piece *)


Lemma step_piece_text tok rep p :
  tok <> EmptyString ->
  shape_ok tok (shape_of p) = true ->
  FindAndReplace (piece_text p) tok rep = piece_text (step tok rep p).
Proof.
  intros Hne. destruct p as [s|t|s]; simpl; intros H.
  - apply andb_true_iff in H as [_ H]. apply negb_true_iff in H.
    apply FindAndReplace_no_occurrence, H.
  - destruct (String.eqb_spec t tok) as [->|Hd].
    + apply FindAndReplace_token, Hne.
    + simpl in H. apply negb_true_iff in H.
      apply FindAndReplace_no_occurrence, H.
  - reflexivity.
Qed.

Lemma shape_of_step tok rep p : shape_of (step tok rep p) = step_shape tok (shape_of p).
Proof. destruct p as [s|t|s]; simpl; try reflexivity. destruct (String.eqb t tok); reflexivity. Qed.

Lemma map_shape_of_step tok rep ps :
  map shape_of (map (step tok rep) ps) = map (step_shape tok) (map shape_of ps).
Proof.
  induction ps as [|p ps IH]; [reflexivity|].
  simpl. rewrite shape_of_step, IH. reflexivity.
Qed.

Lemma FindAndReplace_flatten tok rep ps :
  step_ok tok (map shape_of ps) = true ->
  FindAndReplace (flatten ps) tok rep = flatten (map (step tok rep) ps).
Proof.
  unfold step_ok. intros H.
  apply andb_true_iff in H as [H Hsep]. apply andb_true_iff in H as [Hne Hall].
  assert (tok <> EmptyString) as Hne'.
  { intros ->. discriminate. }
  clear Hne. induction ps as [|p ps IH].
  - apply FindAndReplace_empty.
  - cbn [map forallb] in Hall. apply andb_true_iff in Hall as [Hp Hall].
    assert (separated (map shape_of ps) = true) as Hsep'.
    { cbn [map separated] in Hsep. destruct (map shape_of ps); [reflexivity|].
      apply andb_true_iff in Hsep as [_ Hsep]. exact Hsep. }
    cbn [map flatten].
    rewrite <- (IH Hall Hsep'), <- (step_piece_text tok rep p Hne' Hp).
    destruct p as [s|t|s].
    + apply FindAndReplace_app_last_sep. simpl in Hp.
      apply andb_true_iff in Hp as [Hp _]. apply andb_true_iff in Hp as [_ Hp].
      exact Hp.
    + destruct ps as [|q ps].
      * cbn [flatten]. rewrite FindAndReplace_empty, !append_nil_r. reflexivity.
      * apply FindAndReplace_app_first_sep.
        cbn [map separated is_lit shape_of orb] in Hsep.
        apply andb_true_iff in Hsep as [Hq _].
        destruct q as [s|t'|s]; try discriminate.
        cbn [map forallb shape_of shape_ok] in Hall.
        apply andb_true_iff in Hall as [Hq' _].
        apply andb_true_iff in Hq' as [Hq' _]. apply andb_true_iff in Hq' as [Hq' _].
        cbn [flatten piece_text]. destruct s; [discriminate|]. exact Hq'.
    + destruct ps as [|q ps].
      * cbn [flatten]. rewrite FindAndReplace_empty, !append_nil_r. reflexivity.
      * apply FindAndReplace_app_first_sep.
        cbn [map separated is_lit shape_of orb] in Hsep.
        apply andb_true_iff in Hsep as [Hq _].
        destruct q as [s'|t'|s']; try discriminate.
        cbn [map forallb shape_of shape_ok] in Hall.
        apply andb_true_iff in Hall as [Hq' _].
        apply andb_true_iff in Hq' as [Hq' _]. apply andb_true_iff in Hq' as [Hq' _].
        cbn [flatten piece_text]. destruct s'; [discriminate|]. exact Hq'.
Qed.

(** A chain over a text made of delimited pieces works on each piece. *)
Lemma chain_flatten pairs ps :
  chain_ok (map fst pairs) (map shape_of ps) = true ->
  chain pairs (flatten ps) = flatten (chain_pieces pairs ps).
Proof.
  revert ps. induction pairs as [|[tok rep] pairs IH]; intros ps H; [reflexivity|].
  cbn [map fst chain_ok] in H. apply andb_true_iff in H as [H1 H2].
  cbn [chain chain_pieces]. rewrite (FindAndReplace_flatten _ _ _ H1).
  apply IH. rewrite map_shape_of_step. exact H2.
Qed.

Lemma expand_Lit pairs s : expand pairs (Lit s) = Lit s.
Proof. destruct pairs as [|[tok rep] pairs]; reflexivity. Qed.

Lemma expand_Raw pairs s : expand pairs (Raw s) = Raw (chain pairs s).
Proof. destruct pairs as [|[tok rep] pairs]; reflexivity. Qed.

Lemma chain_pieces_expand pairs ps : chain_pieces pairs ps = map (expand pairs) ps.
Proof.
  revert ps. induction pairs as [|[tok rep] pairs IH]; intros ps.
  - simpl. induction ps as [|p ps IHp]; [reflexivity|]. simpl. rewrite <- IHp. reflexivity.
  - cbn [chain_pieces]. rewrite IH. rewrite List.map_map.
    apply List.map_ext. intros [s|t|s]; cbn [step expand].
    + apply expand_Lit.
    + destruct (String.eqb t tok); [apply expand_Raw|reflexivity].
    + rewrite expand_Raw. reflexivity.
Qed.

Lemma chain_token_free pairs s :
  token_free (map fst pairs) s = true -> chain pairs s = s.
Proof.
  induction pairs as [|[tok rep] pairs IH]; [reflexivity|].
  cbn [map fst token_free forallb]. intros H. apply andb_true_iff in H as [H1 H2].
  apply negb_true_iff in H1. cbn [chain].
  rewrite (FindAndReplace_no_occurrence _ _ _ H1). apply IH, H2.
Qed.

(** The same for a template cut by [tokenize]; both conditions are closed
    and checked by computation. *)
Lemma chain_tokenized pairs template :
  String.eqb (flatten (tokenize (map fst pairs) template)) template = true ->
  chain_ok (map fst pairs) (map shape_of (tokenize (map fst pairs) template)) = true ->
  chain pairs template =
  flatten (map (expand pairs) (tokenize (map fst pairs) template)).
Proof.
  intros H1 H2. apply String.eqb_eq in H1. rewrite <- H1 at 1.
  rewrite chain_flatten by exact H2. rewrite chain_pieces_expand. reflexivity.
Qed.

(** Calls that follow one another are a chain. *)
Lemma chain_one s tok rep : FindAndReplace s tok rep = chain [(tok, rep)] s.
Proof. reflexivity. Qed.

Lemma chain_snoc pairs s tok rep :
  FindAndReplace (chain pairs s) tok rep = chain (pairs ++ [(tok, rep)]) s.
Proof.
  revert s. induction pairs as [|[t r] pairs IH]; intros s; [reflexivity|].
  cbn [chain app]. apply IH.
Qed.

Ltac first_text t :=
  lazymatch t with
  | FindAndReplace ?u _ _ => first_text u
  | _ => t
  end.

Ltac as_chain :=
  lazymatch goal with
  | |- ?calls = _ =>
      let template := first_text calls in
      lazymatch calls with
      | context [FindAndReplace template ?tok ?rep] =>
          rewrite (chain_one template tok rep)
      end
  end;
  rewrite ?chain_snoc; cbn [app].

(** Writes the calls over a closed template as the text of its pieces. *)
Ltac render_chain :=
  as_chain;
  rewrite chain_tokenized by (vm_compute; reflexivity);
  cbn [map fst];
  match goal with
  | |- context [tokenize ?toks ?template] =>
      let ps := eval vm_compute in (tokenize toks template) in
      change (tokenize toks template) with ps
  end;
  cbn [map expand flatten piece_text String.eqb Ascii.eqb Bool.eqb];
  rewrite ?append_nil_r.

End GdString.

(** ** BehaviorCodeGenerator.cpp *)

Module Property.
(** gd::NamedPropertyDescriptor, as far as the generator reads it. *)
Record NamedPropertyDescriptor := {
  GetName : string;
  GetType : string;
  GetValue : string;
  IsHidden : bool
}.
End Property.

Module EventsCodeGenerator.
Import GdString.

(** Modelled from the spec: EventsCodeGenerator::ConvertToStringExplicit is
    declared in GDCore; the spec has it give a quoted and escaped string
    literal.  Here the backslash, the double quote, the line feed and the
    carriage return are escaped. *)
Fixpoint ConvertToString (plainString : string) : string :=
  match plainString with
  | EmptyString => EmptyString
  | String c rest =>
      let backslash := ascii_of_nat 92 in
      (if Ascii.eqb c backslash then String backslash (String backslash EmptyString)
       else if Ascii.eqb c (ascii_of_nat 34)
       then String backslash (String (ascii_of_nat 34) EmptyString)
       else if Ascii.eqb c (ascii_of_nat 10) then String backslash "n"
       else if Ascii.eqb c (ascii_of_nat 13) then String backslash "r"
       else String c EmptyString)
      +:+ ConvertToString rest
  end.

Definition ConvertToStringExplicit (plainString : string) : string :=
  dquote +:+ ConvertToString plainString +:+ dquote.

(** An events function known by its name only, and a stand-in for
    GenerateBehaviorEventsFunctionCode that writes an empty method under the
    qualified name it is given and asks for one include file. *)
Definition NamedFunction : Type := string.

Definition GenerateEmptyFunctionCode
  (eventsFunction : NamedFunction) (codeNamespace fullyQualifiedName : string)
  (includeFiles : gset string) (compilationForRuntime : bool)
  : string * gset string :=
  ("
" +:+ fullyQualifiedName +:+ " = function() {};",
   {[ "events-tools/commontools.js" ]} ∪ includeFiles).

End EventsCodeGenerator.

Module Behavior.
(** gd::EventsBasedBehavior, as far as the generator reads it. *)
Record EventsBasedBehavior (EventsFunction : Type) := {
  GetName : string;
  GetFullName : string;
  GetPropertyDescriptors : list Property.NamedPropertyDescriptor;
  GetEventsFunctions : list EventsFunction
}.
Arguments GetName {EventsFunction} _.
Arguments GetFullName {EventsFunction} _.
Arguments GetPropertyDescriptors {EventsFunction} _.
Arguments GetEventsFunctions {EventsFunction} _.

(** A behavior to run the generator on. *)
Definition Mover (properties : list Property.NamedPropertyDescriptor)
  (eventsFunctions : list EventsCodeGenerator.NamedFunction)
  : EventsBasedBehavior EventsCodeGenerator.NamedFunction :=
  {| GetName := "Mover";
     GetFullName := "Mover behavior";
     GetPropertyDescriptors := properties;
     GetEventsFunctions := eventsFunctions |}.
End Behavior.

Module BehaviorCodeGenerator_h.

(** Modelled from the spec: the accessor names are declared in
    BehaviorCodeGenerator.h; the spec gives Get<Name> and Set<Name> as their
    scheme. *)
Definition GetBehaviorPropertyGetterName (propertyName : string) : string :=
  "Get" +:+ propertyName.

Definition GetBehaviorPropertySetterName (propertyName : string) : string :=
  "Set" +:+ propertyName.

End BehaviorCodeGenerator_h.

Module BehaviorCodeGenerator.
Import GdString.

(** The raw string literals of the generator. *)
Definition RuntimeBehaviorTemplate : string :=
  "
CODE_NAMESPACE = CODE_NAMESPACE || {};

/**
 * Behavior generated from BEHAVIOR_FULL_NAME
 * @class RUNTIME_BEHAVIOR_CLASSNAME
 * @extends gdjs.RuntimeBehavior
 * @constructor
 */
CODE_NAMESPACE.RUNTIME_BEHAVIOR_CLASSNAME = function(runtimeScene, behaviorData, owner)
{
    gdjs.RuntimeBehavior.call(this, runtimeScene, behaviorData, owner);
    this._runtimeScene = runtimeScene;

    this._behaviorData = {};
    INITIALIZE_PROPERTIES_CODE
};

CODE_NAMESPACE.RUNTIME_BEHAVIOR_CLASSNAME.prototype = Object.create( gdjs.RuntimeBehavior.prototype );
gdjs.registerBehavior(" +:+ dquote +:+ "EXTENSION_NAME::BEHAVIOR_NAME" +:+ dquote +:+ ", CODE_NAMESPACE.RUNTIME_BEHAVIOR_CLASSNAME);

// Hot-reload:
CODE_NAMESPACE.RUNTIME_BEHAVIOR_CLASSNAME.prototype.updateFromBehaviorData = function(oldBehaviorData, newBehaviorData) {
UPDATE_FROM_BEHAVIOR_DATA_CODE

    return true;
}

// Properties:
PROPERTIES_CODE

// Methods:
METHODS_CODE
".

Definition InitializePropertyFromDataTemplate : string :=
  "
    this._behaviorData.PROPERTY_NAME = behaviorData.PROPERTY_NAME !== undefined ? behaviorData.PROPERTY_NAME : DEFAULT_VALUE;".

Definition InitializePropertyFromDefaultValueTemplate : string :=
  "
    this._behaviorData.PROPERTY_NAME = DEFAULT_VALUE;".

Definition RuntimeBehaviorPropertyTemplate : string :=
  "
CODE_NAMESPACE.RUNTIME_BEHAVIOR_CLASSNAME.prototype.GETTER_NAME = function() {
    return this._behaviorData.PROPERTY_NAME !== undefined ? this._behaviorData.PROPERTY_NAME : DEFAULT_VALUE;
};
CODE_NAMESPACE.RUNTIME_BEHAVIOR_CLASSNAME.prototype.SETTER_NAME = function(newValue) {
    this._behaviorData.PROPERTY_NAME = newValue;
};".

Definition UpdatePropertyFromBehaviorDataTemplate : string :=
  "
    if (oldBehaviorData.PROPERTY_NAME !== newBehaviorData.PROPERTY_NAME)
        this._behaviorData.PROPERTY_NAME = newBehaviorData.PROPERTY_NAME;".

Definition OnDestroyTemplate : string :=
  "
CODE_NAMESPACE.RUNTIME_BEHAVIOR_CLASSNAME.prototype.onDestroy = function() {
  // Redirect call to onOwnerRemovedFromScene (the old name of onDestroy)
  if (this.onOwnerRemovedFromScene) this.onOwnerRemovedFromScene();
};".

(** The method name used when the mangled names have no entry for a
    function. *)
Definition UNKNOWN_FUNCTION : string :=
  "UNKNOWN_FUNCTION_fix_behaviorMethodMangledNames_please".

Section Generator.

(** gd::EventsFunction and its name; the events themselves are only read by
    the events code generator. *)
Variable EventsFunction : Type.
Variable EventsFunction_GetName : EventsFunction -> string.

(** EventsCodeGenerator::ConvertToStringExplicit, declared in GDCore: the
    quoted and escaped literal of a text. *)
Variable ConvertToStringExplicit : string -> string.

(** The accessor names, declared in BehaviorCodeGenerator.h. *)
Variable GetBehaviorPropertyGetterName : string -> string.
Variable GetBehaviorPropertySetterName : string -> string.

(** EventsCodeGenerator::GenerateBehaviorEventsFunctionCode for the project
    of the generator: function, namespace of the method, qualified name of
    the method, include files so far, compilation for runtime; it gives the
    code of the method and the include files it leaves. *)
Variable GenerateBehaviorEventsFunctionCode :
  EventsFunction -> string -> string -> gset string -> bool ->
  string * gset string.

Local Abbreviation EventsBasedBehavior := (Behavior.EventsBasedBehavior EventsFunction).

Definition GeneratePropertyValueCode (property : Property.NamedPropertyDescriptor)
  : string :=
  if String.eqb (Property.GetType property) "String"
     || String.eqb (Property.GetType property) "Choice"
  then ConvertToStringExplicit (Property.GetValue property)
  else if String.eqb (Property.GetType property) "Number"
  then "Number(" +:+ ConvertToStringExplicit (Property.GetValue property) +:+ ") || 0"
  else if String.eqb (Property.GetType property) "Boolean"
  then (if String.eqb (Property.GetValue property) "true" then "true" else "false")
  else "0 /* Error: property was of an unrecognized type */".

Definition GenerateInitializePropertyFromDataCode
  (property : Property.NamedPropertyDescriptor) : string :=
  InitializePropertyFromDataTemplate
    .FindAndReplace("PROPERTY_NAME", Property.GetName property)
    .FindAndReplace("DEFAULT_VALUE", GeneratePropertyValueCode property).

Definition GenerateInitializePropertyFromDefaultValueCode
  (property : Property.NamedPropertyDescriptor) : string :=
  InitializePropertyFromDefaultValueTemplate
    .FindAndReplace("PROPERTY_NAME", Property.GetName property)
    .FindAndReplace("DEFAULT_VALUE", GeneratePropertyValueCode property).

Definition GenerateRuntimeBehaviorPropertyTemplateCode
  (eventsBasedBehavior : EventsBasedBehavior) (codeNamespace : string)
  (property : Property.NamedPropertyDescriptor) : string :=
  RuntimeBehaviorPropertyTemplate
    .FindAndReplace("PROPERTY_NAME", Property.GetName property)
    .FindAndReplace("GETTER_NAME",
                    GetBehaviorPropertyGetterName (Property.GetName property))
    .FindAndReplace("SETTER_NAME",
                    GetBehaviorPropertySetterName (Property.GetName property))
    .FindAndReplace("DEFAULT_VALUE", GeneratePropertyValueCode property)
    .FindAndReplace("RUNTIME_BEHAVIOR_CLASSNAME",
                    Behavior.GetName eventsBasedBehavior)
    .FindAndReplace("CODE_NAMESPACE", codeNamespace).

Definition GenerateUpdatePropertyFromBehaviorDataCode
  (eventsBasedBehavior : EventsBasedBehavior) (codeNamespace : string)
  (property : Property.NamedPropertyDescriptor) : string :=
  UpdatePropertyFromBehaviorDataTemplate
    .FindAndReplace("PROPERTY_NAME", Property.GetName property).

Definition GenerateBehaviorOnDestroyToDeprecatedOnOwnerRemovedFromScene
  (eventsBasedBehavior : EventsBasedBehavior) (codeNamespace : string) : string :=
  OnDestroyTemplate
    .FindAndReplace("RUNTIME_BEHAVIOR_CLASSNAME",
                    Behavior.GetName eventsBasedBehavior)
    .FindAndReplace("CODE_NAMESPACE", codeNamespace).

(** The four code generators are called where their text is put in. *)
Definition GenerateRuntimeBehaviorTemplateCode
  (extensionName : string) (eventsBasedBehavior : EventsBasedBehavior)
  (codeNamespace : string)
  (generateInitializePropertiesCode generateMethodsCode
   generatePropertiesCode generateUpdateFromBehaviorDataCode : unit -> string)
  : string :=
  RuntimeBehaviorTemplate
    .FindAndReplace("EXTENSION_NAME", extensionName)
    .FindAndReplace("BEHAVIOR_NAME", Behavior.GetName eventsBasedBehavior)
    .FindAndReplace("BEHAVIOR_FULL_NAME", Behavior.GetFullName eventsBasedBehavior)
    .FindAndReplace("RUNTIME_BEHAVIOR_CLASSNAME",
                    Behavior.GetName eventsBasedBehavior)
    .FindAndReplace("CODE_NAMESPACE", codeNamespace)
    .FindAndReplace("INITIALIZE_PROPERTIES_CODE",
                    generateInitializePropertiesCode tt)
    .FindAndReplace("UPDATE_FROM_BEHAVIOR_DATA_CODE",
                    generateUpdateFromBehaviorDataCode tt)
    .FindAndReplace("PROPERTIES_CODE", generatePropertiesCode tt)
    .FindAndReplace("METHODS_CODE", generateMethodsCode tt).

(** The loops of GenerateRuntimeBehaviorCompleteCode; each appends to its
    text for every element in turn. *)
Definition runtimeBehaviorDataInitializationCode
  (eventsBasedBehavior : EventsBasedBehavior) : string :=
  fold_left
    (fun code property =>
       code +:+
       (if Property.IsHidden property
        then GenerateInitializePropertyFromDefaultValueCode property
        else GenerateInitializePropertyFromDataCode property))
    (Behavior.GetPropertyDescriptors eventsBasedBehavior) EmptyString.

Definition runtimeBehaviorPropertyMethodsCode
  (eventsBasedBehavior : EventsBasedBehavior) (codeNamespace : string) : string :=
  fold_left
    (fun code property =>
       code +:+
       GenerateRuntimeBehaviorPropertyTemplateCode
         eventsBasedBehavior codeNamespace property)
    (Behavior.GetPropertyDescriptors eventsBasedBehavior) EmptyString.

Definition updateFromBehaviorCode
  (eventsBasedBehavior : EventsBasedBehavior) (codeNamespace : string) : string :=
  fold_left
    (fun code property =>
       code +:+
       GenerateUpdatePropertyFromBehaviorDataCode
         eventsBasedBehavior codeNamespace property)
    (Behavior.GetPropertyDescriptors eventsBasedBehavior) EmptyString.

(** The method name of an events function. *)
Definition functionName
  (behaviorMethodMangledNames : gmap string string)
  (eventsFunction : EventsFunction) : string :=
  match behaviorMethodMangledNames !! EventsFunction_GetName eventsFunction with
  | Some mangled => mangled
  | None => UNKNOWN_FUNCTION
  end.

(** The body of the loop over the events functions: the code of one method
    and, for onOwnerRemovedFromScene, the onDestroy method after it. *)
Definition methodCode
  (eventsBasedBehavior : EventsBasedBehavior) (codeNamespace : string)
  (behaviorMethodMangledNames : gmap string string)
  (compilationForRuntime : bool)
  (eventsFunction : EventsFunction) (includeFiles : gset string)
  : string * gset string :=
  let functionName := functionName behaviorMethodMangledNames eventsFunction in
  let methodCodeNamespace :=
    codeNamespace +:+ "." +:+ Behavior.GetName eventsBasedBehavior +:+
    ".prototype." +:+ functionName +:+ "Context" in
  let methodFullyQualifiedName :=
    codeNamespace +:+ "." +:+ Behavior.GetName eventsBasedBehavior +:+
    ".prototype." +:+ functionName in
  let '(code, includeFiles) :=
    GenerateBehaviorEventsFunctionCode
      eventsFunction methodCodeNamespace methodFullyQualifiedName
      includeFiles compilationForRuntime in
  (code +:+
   (if String.eqb functionName "onOwnerRemovedFromScene"
    then GenerateBehaviorOnDestroyToDeprecatedOnOwnerRemovedFromScene
           eventsBasedBehavior codeNamespace
    else EmptyString),
   includeFiles).

(** The loop over the events functions, from the text and the include files
    reached so far. *)
Definition methodsLoop
  (eventsBasedBehavior : EventsBasedBehavior) (codeNamespace : string)
  (behaviorMethodMangledNames : gmap string string)
  (compilationForRuntime : bool)
  (eventsFunctions : list EventsFunction) (state : string * gset string)
  : string * gset string :=
  fold_left
    (fun '(code, includeFiles) eventsFunction =>
       let '(method, includeFiles) :=
         methodCode eventsBasedBehavior codeNamespace behaviorMethodMangledNames
                    compilationForRuntime eventsFunction includeFiles in
       (code +:+ method, includeFiles))
    eventsFunctions state.

Definition runtimeBehaviorMethodsCode
  (eventsBasedBehavior : EventsBasedBehavior) (codeNamespace : string)
  (behaviorMethodMangledNames : gmap string string)
  (includeFiles : gset string) (compilationForRuntime : bool)
  : string * gset string :=
  methodsLoop eventsBasedBehavior codeNamespace behaviorMethodMangledNames
    compilationForRuntime
    (Behavior.GetEventsFunctions eventsBasedBehavior) (EmptyString, includeFiles).

(** The second generator passed is the one of the property accessors and the
    third the one of the events functions, as in the call of the source. *)
Definition GenerateRuntimeBehaviorCompleteCode
  (extensionName : string) (eventsBasedBehavior : EventsBasedBehavior)
  (codeNamespace : string) (behaviorMethodMangledNames : gmap string string)
  (includeFiles : gset string) (compilationForRuntime : bool)
  : string * gset string :=
  let methods :=
    runtimeBehaviorMethodsCode eventsBasedBehavior codeNamespace
      behaviorMethodMangledNames includeFiles compilationForRuntime in
  (GenerateRuntimeBehaviorTemplateCode extensionName eventsBasedBehavior codeNamespace
     (fun _ => runtimeBehaviorDataInitializationCode eventsBasedBehavior)
     (fun _ => runtimeBehaviorPropertyMethodsCode eventsBasedBehavior codeNamespace)
     (fun _ => fst methods)
     (fun _ => updateFromBehaviorCode eventsBasedBehavior codeNamespace),
   snd methods).

(** The fragments as the spec words them: the text with the values put at
    their places and nothing else changed. *)
Definition initializer_from_default (name value : string) : string :=
  "
    this._behaviorData." +:+ name +:+ " = " +:+ value +:+ ";".

Definition initializer_from_data (name value : string) : string :=
  "
    this._behaviorData." +:+ name +:+ " = behaviorData." +:+ name +:+
  " !== undefined ? behaviorData." +:+ name +:+ " : " +:+ value +:+ ";".



(** The module as a whole: the text of the template with the namespace, the
    name of the behavior, its full name, the name of the extension and the
    four pieces of code at their places. *)
Definition module_text
  (codeNamespace name fullName extensionName
   initialization update events accessors : string) : string :=
  "
" +:+ codeNamespace +:+ " = " +:+ codeNamespace +:+ " || {};

/**
 * Behavior generated from " +:+ fullName +:+ "
 * @class " +:+ name +:+ "
 * @extends gdjs.RuntimeBehavior
 * @constructor
 */
" +:+ codeNamespace +:+ "." +:+ name +:+ " = function(runtimeScene, behaviorData, owner)
{
    gdjs.RuntimeBehavior.call(this, runtimeScene, behaviorData, owner);
    this._runtimeScene = runtimeScene;

    this._behaviorData = {};
    " +:+ initialization +:+ "
};

" +:+ codeNamespace +:+ "." +:+ name +:+ ".prototype = Object.create( gdjs.RuntimeBehavior.prototype );
gdjs.registerBehavior(" +:+ dquote +:+ extensionName +:+ "::" +:+ name +:+ dquote +:+ ", " +:+ codeNamespace +:+ "." +:+ name +:+ ");

// Hot-reload:
" +:+ codeNamespace +:+ "." +:+ name +:+ ".prototype.updateFromBehaviorData = function(oldBehaviorData, newBehaviorData) {
" +:+ update +:+ "

    return true;
}

// Properties:
" +:+ events +:+ "

// Methods:
" +:+ accessors +:+ "
".

(** *** The text of each fragment *)

Lemma GenerateInitializePropertyFromDefaultValueCode_text property :
  GenerateInitializePropertyFromDefaultValueCode property =
  initializer_from_default
    (FindAndReplace (Property.GetName property) "DEFAULT_VALUE"
       (GeneratePropertyValueCode property))
    (GeneratePropertyValueCode property).
Proof.
  unfold GenerateInitializePropertyFromDefaultValueCode, initializer_from_default.
  render_chain. reflexivity.
Qed.

Lemma GenerateInitializePropertyFromDataCode_text property :
  GenerateInitializePropertyFromDataCode property =
  initializer_from_data
    (FindAndReplace (Property.GetName property) "DEFAULT_VALUE"
       (GeneratePropertyValueCode property))
    (GeneratePropertyValueCode property).
Proof.
  unfold GenerateInitializePropertyFromDataCode, initializer_from_data.
  render_chain. reflexivity.
Qed.



(** The text of the whole module, piece by piece: every value put in is
    still scanned by the calls that follow its own. *)
Lemma GenerateRuntimeBehaviorTemplateCode_text
  extensionName (eventsBasedBehavior : EventsBasedBehavior) codeNamespace
  generateInitializePropertiesCode generateMethodsCode
  generatePropertiesCode generateUpdateFromBehaviorDataCode :
  let pairs :=
    [ ("EXTENSION_NAME", extensionName);
      ("BEHAVIOR_NAME", Behavior.GetName eventsBasedBehavior);
      ("BEHAVIOR_FULL_NAME", Behavior.GetFullName eventsBasedBehavior);
      ("RUNTIME_BEHAVIOR_CLASSNAME", Behavior.GetName eventsBasedBehavior);
      ("CODE_NAMESPACE", codeNamespace);
      ("INITIALIZE_PROPERTIES_CODE", generateInitializePropertiesCode tt);
      ("UPDATE_FROM_BEHAVIOR_DATA_CODE", generateUpdateFromBehaviorDataCode tt);
      ("PROPERTIES_CODE", generatePropertiesCode tt);
      ("METHODS_CODE", generateMethodsCode tt) ] in
  GenerateRuntimeBehaviorTemplateCode extensionName eventsBasedBehavior codeNamespace
    generateInitializePropertiesCode generateMethodsCode
    generatePropertiesCode generateUpdateFromBehaviorDataCode =
  flatten (map (expand pairs) (tokenize (map fst pairs) RuntimeBehaviorTemplate)).
Proof.
  intros pairs. unfold GenerateRuntimeBehaviorTemplateCode. as_chain. fold pairs.
  apply chain_tokenized; vm_compute; reflexivity.
Qed.


Lemma concat_cons (x : string) (xs : list string) :
  String.concat EmptyString (x :: xs) = x +:+ String.concat EmptyString xs.
Proof. destruct xs; [symmetry; apply append_nil_r|reflexivity]. Qed.

(** A loop that appends to a text gives the texts one after the other. *)
Lemma append_loop {A} (f : A -> string) (l : list A) (code : string) :
  fold_left (fun code x => code +:+ f x) l code =
  code +:+ String.concat EmptyString (map f l).
Proof.
  revert code. induction l as [|x l IH]; intros code.
  - symmetry. apply append_nil_r.
  - cbn [fold_left map]. rewrite IH, concat_cons, append_assoc. reflexivity.
Qed.

Lemma methodCode_unfold
  (eventsBasedBehavior : EventsBasedBehavior) codeNamespace
  behaviorMethodMangledNames compilationForRuntime eventsFunction includeFiles :
  let name := functionName behaviorMethodMangledNames eventsFunction in
  let generated :=
    GenerateBehaviorEventsFunctionCode eventsFunction
      (codeNamespace +:+ "." +:+ Behavior.GetName eventsBasedBehavior +:+
       ".prototype." +:+ name +:+ "Context")
      (codeNamespace +:+ "." +:+ Behavior.GetName eventsBasedBehavior +:+
       ".prototype." +:+ name)
      includeFiles compilationForRuntime in
  methodCode eventsBasedBehavior codeNamespace behaviorMethodMangledNames
    compilationForRuntime eventsFunction includeFiles =
  (fst generated +:+
   (if String.eqb name "onOwnerRemovedFromScene"
    then GenerateBehaviorOnDestroyToDeprecatedOnOwnerRemovedFromScene
           eventsBasedBehavior codeNamespace
    else EmptyString),
   snd generated).
Proof.
  intros name generated. unfold methodCode. fold name. fold generated.
  destruct generated as [code includes]. reflexivity.
Qed.

Lemma methodsLoop_cons
  (eventsBasedBehavior : EventsBasedBehavior) codeNamespace
  behaviorMethodMangledNames compilationForRuntime eventsFunction rest code includeFiles :
  let method :=
    methodCode eventsBasedBehavior codeNamespace behaviorMethodMangledNames
      compilationForRuntime eventsFunction includeFiles in
  methodsLoop eventsBasedBehavior codeNamespace behaviorMethodMangledNames
    compilationForRuntime (eventsFunction :: rest) (code, includeFiles) =
  methodsLoop eventsBasedBehavior codeNamespace behaviorMethodMangledNames
    compilationForRuntime rest (code +:+ fst method, snd method).
Proof.
  intros method. unfold methodsLoop. cbn [fold_left]. fold method.
  destruct method as [text includes]. reflexivity.
Qed.



(** *** The claims on the generator *)


(** C2, as the code has it.  The initialization code has one fragment per
    property, in order.  For a hidden property the fragment assigns the
    rendered default value to the slot and reads nothing else; for any other
    property it reads the input data at the key and falls back to the
    rendered default value when that is undefined.  The slot and the key are
    the name of the property once the DEFAULT_VALUE call has gone over it:
    the name itself when DEFAULT_VALUE does not occur in it. *)
Theorem initialization_by_hidden_flag (eventsBasedBehavior : EventsBasedBehavior) :
  let written property :=
    FindAndReplace (Property.GetName property) "DEFAULT_VALUE"
      (GeneratePropertyValueCode property) in
  runtimeBehaviorDataInitializationCode eventsBasedBehavior =
  String.concat EmptyString
    (map (fun property =>
            if Property.IsHidden property
            then initializer_from_default
                   (written property) (GeneratePropertyValueCode property)
            else initializer_from_data
                   (written property) (GeneratePropertyValueCode property))
       (Behavior.GetPropertyDescriptors eventsBasedBehavior))
  /\ (forall property,
        contains (Property.GetName property) "DEFAULT_VALUE" = false ->
        written property = Property.GetName property).
Proof.
  intros written. split.
  - unfold runtimeBehaviorDataInitializationCode.
    rewrite append_loop, append_nil_l. f_equal.
    apply List.map_ext. intros property.
    destruct (Property.IsHidden property).
    + apply GenerateInitializePropertyFromDefaultValueCode_text.
    + apply GenerateInitializePropertyFromDataCode_text.
  - intros property H. apply FindAndReplace_no_occurrence, H.
Qed.


(** C4.  The rendered default value follows the type: the quoted and
    escaped literal of the value for String and Choice; Number(...) || 0 over
    that literal for Number; true exactly when the value is the text true,
    false otherwise, for Boolean; the error marker for every other type. *)
Theorem property_value_code_by_type (property : Property.NamedPropertyDescriptor) :
  let type := Property.GetType property in
  let value := Property.GetValue property in
  (type = "String" \/ type = "Choice" ->
   GeneratePropertyValueCode property = ConvertToStringExplicit value)
  /\ (type = "Number" ->
      GeneratePropertyValueCode property =
      "Number(" +:+ ConvertToStringExplicit value +:+ ") || 0")
  /\ (type = "Boolean" -> value = "true" ->
      GeneratePropertyValueCode property = "true")
  /\ (type = "Boolean" -> value <> "true" ->
      GeneratePropertyValueCode property = "false")
  /\ (type <> "String" -> type <> "Choice" -> type <> "Number" ->
      type <> "Boolean" ->
      GeneratePropertyValueCode property =
      "0 /* Error: property was of an unrecognized type */").
Proof.
  intros type value. unfold GeneratePropertyValueCode. fold type value.
  repeat split.
  - intros [-> | ->]; reflexivity.
  - intros ->. reflexivity.
  - intros -> ->. reflexivity.
  - intros -> Hv. cbn [String.eqb Ascii.eqb Bool.eqb orb].
    destruct (String.eqb_spec value "true"); [contradiction|reflexivity].
  - intros H1 H2 H3 H4.
    destruct (String.eqb_spec type "String"); [contradiction|].
    destruct (String.eqb_spec type "Choice"); [contradiction|].
    destruct (String.eqb_spec type "Number"); [contradiction|].
    destruct (String.eqb_spec type "Boolean"); [contradiction|].
    reflexivity.
Qed.



(** The hot-reload code has one fragment per property, in order: the slot
    is assigned the new data at the name of the property when the old and
    the new data differ there.  The name is the last text put in, so it is
    there as it is. *)
Theorem update_from_behavior_data_by_property
  (eventsBasedBehavior : EventsBasedBehavior) (codeNamespace : string) :
  updateFromBehaviorCode eventsBasedBehavior codeNamespace =
  String.concat EmptyString
    (map (fun property =>
            "
    if (oldBehaviorData." +:+ Property.GetName property +:+
            " !== newBehaviorData." +:+ Property.GetName property +:+ ")
        this._behaviorData." +:+ Property.GetName property +:+
            " = newBehaviorData." +:+ Property.GetName property +:+ ";")
       (Behavior.GetPropertyDescriptors eventsBasedBehavior)).
Proof.
  unfold updateFromBehaviorCode. rewrite append_loop, append_nil_l.
  apply (f_equal (String.concat EmptyString)).
  apply List.map_ext. intros property.
  unfold GenerateUpdatePropertyFromBehaviorDataCode. render_chain. reflexivity.
Qed.

(** The include files that the loop over the events functions leaves are
    those of the calls of the events code generator, one after the other. *)
Lemma methodsLoop_includeFiles
  (eventsBasedBehavior : EventsBasedBehavior) codeNamespace
  behaviorMethodMangledNames compilationForRuntime eventsFunctions code includeFiles :
  snd (methodsLoop eventsBasedBehavior codeNamespace behaviorMethodMangledNames
         compilationForRuntime eventsFunctions (code, includeFiles)) =
  fold_left
    (fun includeFiles eventsFunction =>
       snd (methodCode eventsBasedBehavior codeNamespace behaviorMethodMangledNames
              compilationForRuntime eventsFunction includeFiles))
    eventsFunctions includeFiles.
Proof.
  revert code includeFiles.
  induction eventsFunctions as [|f rest IH]; intros code includeFiles; [reflexivity|].
  rewrite methodsLoop_cons. cbn zeta. cbn [fold_left]. apply IH.
Qed.

(** X3.  When the name of the extension, the name and the full name of the
    behavior, the namespace and the three pieces of code put in before the
    last one hold no token that is replaced after them, the module is the
    template with every value at its place and nothing else changed.  The
    code of the events functions stands under the heading Properties and the
    accessors of the properties under the heading Methods. *)
Theorem module_text_of_a_behavior
  (extensionName : string) (eventsBasedBehavior : EventsBasedBehavior)
  (codeNamespace : string) (behaviorMethodMangledNames : gmap string string)
  (includeFiles : gset string) (compilationForRuntime : bool) :
  let name := Behavior.GetName eventsBasedBehavior in
  let fullName := Behavior.GetFullName eventsBasedBehavior in
  let initialization := runtimeBehaviorDataInitializationCode eventsBasedBehavior in
  let update := updateFromBehaviorCode eventsBasedBehavior codeNamespace in
  let events :=
    fst (runtimeBehaviorMethodsCode eventsBasedBehavior codeNamespace
           behaviorMethodMangledNames includeFiles compilationForRuntime) in
  let accessors :=
    runtimeBehaviorPropertyMethodsCode eventsBasedBehavior codeNamespace in
  token_free [ "BEHAVIOR_NAME"; "BEHAVIOR_FULL_NAME"; "RUNTIME_BEHAVIOR_CLASSNAME";
               "CODE_NAMESPACE"; "INITIALIZE_PROPERTIES_CODE";
               "UPDATE_FROM_BEHAVIOR_DATA_CODE"; "PROPERTIES_CODE"; "METHODS_CODE" ]
    extensionName = true ->
  token_free [ "BEHAVIOR_FULL_NAME"; "RUNTIME_BEHAVIOR_CLASSNAME";
               "CODE_NAMESPACE"; "INITIALIZE_PROPERTIES_CODE";
               "UPDATE_FROM_BEHAVIOR_DATA_CODE"; "PROPERTIES_CODE"; "METHODS_CODE" ]
    name = true ->
  token_free [ "RUNTIME_BEHAVIOR_CLASSNAME";
               "CODE_NAMESPACE"; "INITIALIZE_PROPERTIES_CODE";
               "UPDATE_FROM_BEHAVIOR_DATA_CODE"; "PROPERTIES_CODE"; "METHODS_CODE" ]
    fullName = true ->
  token_free [ "INITIALIZE_PROPERTIES_CODE";
               "UPDATE_FROM_BEHAVIOR_DATA_CODE"; "PROPERTIES_CODE"; "METHODS_CODE" ]
    codeNamespace = true ->
  token_free [ "UPDATE_FROM_BEHAVIOR_DATA_CODE"; "PROPERTIES_CODE"; "METHODS_CODE" ]
    initialization = true ->
  token_free [ "PROPERTIES_CODE"; "METHODS_CODE" ] update = true ->
  token_free [ "METHODS_CODE" ] events = true ->
  fst (GenerateRuntimeBehaviorCompleteCode extensionName eventsBasedBehavior
         codeNamespace behaviorMethodMangledNames includeFiles compilationForRuntime) =
  module_text codeNamespace name fullName extensionName
    initialization update events accessors.
Proof.
  intros name fullName initialization update events accessors
         Hextension Hname HfullName Hnamespace Hinitialization Hupdate Hevents.
  assert (token_free [ "CODE_NAMESPACE"; "INITIALIZE_PROPERTIES_CODE";
                       "UPDATE_FROM_BEHAVIOR_DATA_CODE"; "PROPERTIES_CODE";
                       "METHODS_CODE" ] name = true) as Hclass.
  { unfold token_free in *. cbn [forallb] in *.
    apply andb_true_iff in Hname as [_ Hname].
    apply andb_true_iff in Hname as [_ Hname]. exact Hname. }
  unfold GenerateRuntimeBehaviorCompleteCode. cbn [fst].
  rewrite GenerateRuntimeBehaviorTemplateCode_text. cbn zeta. cbn [map fst].
  fold name fullName initialization update events accessors.
  match goal with
  | |- context [tokenize ?toks ?template] =>
      let ps := eval vm_compute in (tokenize toks template) in
      change (tokenize toks template) with ps
  end.
  cbn [map expand flatten piece_text String.eqb Ascii.eqb Bool.eqb].
  rewrite (chain_token_free _ extensionName) by exact Hextension.
  rewrite (chain_token_free _ fullName) by exact HfullName.
  rewrite (chain_token_free _ codeNamespace) by exact Hnamespace.
  rewrite (chain_token_free _ initialization) by exact Hinitialization.
  rewrite (chain_token_free _ update) by exact Hupdate.
  rewrite (chain_token_free _ events) by exact Hevents.
  rewrite !(chain_token_free
              [ ("BEHAVIOR_FULL_NAME", fullName);
                ("RUNTIME_BEHAVIOR_CLASSNAME", name);
                ("CODE_NAMESPACE", codeNamespace);
                ("INITIALIZE_PROPERTIES_CODE", initialization);
                ("UPDATE_FROM_BEHAVIOR_DATA_CODE", update);
                ("PROPERTIES_CODE", events); ("METHODS_CODE", accessors) ] name)
    by exact Hname.
  rewrite !(chain_token_free
              [ ("CODE_NAMESPACE", codeNamespace);
                ("INITIALIZE_PROPERTIES_CODE", initialization);
                ("UPDATE_FROM_BEHAVIOR_DATA_CODE", update);
                ("PROPERTIES_CODE", events); ("METHODS_CODE", accessors) ] name)
    by exact Hclass.
  cbn [chain]. unfold module_text. rewrite ?append_nil_r, ?append_assoc.
  reflexivity.
Qed.

(** X4.  The include files that the generator leaves are those of the events
    functions alone, taken in their order, each call of the events code
    generator starting from the include files that the call before it left:
    the name of the extension and the properties have no part in them.  For
    a behavior without events functions they are the include files given;
    and when the events code generator only adds include files, so does the
    generator. *)
Theorem include_files_of_the_events_functions
  (extensionName : string) (eventsBasedBehavior : EventsBasedBehavior)
  (codeNamespace : string) (behaviorMethodMangledNames : gmap string string)
  (includeFiles : gset string) (compilationForRuntime : bool) :
  let generated :=
    GenerateRuntimeBehaviorCompleteCode extensionName eventsBasedBehavior
      codeNamespace behaviorMethodMangledNames includeFiles compilationForRuntime in
  snd generated =
    fold_left
      (fun includeFiles eventsFunction =>
         let name := functionName behaviorMethodMangledNames eventsFunction in
         snd (GenerateBehaviorEventsFunctionCode eventsFunction
                (codeNamespace +:+ "." +:+ Behavior.GetName eventsBasedBehavior +:+
                 ".prototype." +:+ name +:+ "Context")
                (codeNamespace +:+ "." +:+ Behavior.GetName eventsBasedBehavior +:+
                 ".prototype." +:+ name)
                includeFiles compilationForRuntime))
      (Behavior.GetEventsFunctions eventsBasedBehavior) includeFiles
  /\ (Behavior.GetEventsFunctions eventsBasedBehavior = [] ->
      snd generated = includeFiles)
  /\ ((forall eventsFunction namespace name includes runtime,
         includes ⊆
         snd (GenerateBehaviorEventsFunctionCode
                eventsFunction namespace name includes runtime)) ->
      includeFiles ⊆ snd generated).
Proof.
  intros generated. subst generated.
  unfold GenerateRuntimeBehaviorCompleteCode, runtimeBehaviorMethodsCode. cbn [snd].
  rewrite methodsLoop_includeFiles.
  assert (forall includes,
            fold_left
              (fun includeFiles eventsFunction =>
                 snd (methodCode eventsBasedBehavior codeNamespace
                        behaviorMethodMangledNames compilationForRuntime
                        eventsFunction includeFiles))
              (Behavior.GetEventsFunctions eventsBasedBehavior) includes =
            fold_left
              (fun includeFiles eventsFunction =>
                 let name := functionName behaviorMethodMangledNames eventsFunction in
                 snd (GenerateBehaviorEventsFunctionCode eventsFunction
                        (codeNamespace +:+ "." +:+
                         Behavior.GetName eventsBasedBehavior +:+
                         ".prototype." +:+ name +:+ "Context")
                        (codeNamespace +:+ "." +:+
                         Behavior.GetName eventsBasedBehavior +:+
                         ".prototype." +:+ name)
                        includeFiles compilationForRuntime))
              (Behavior.GetEventsFunctions eventsBasedBehavior) includes) as Hcalls.
  { generalize (Behavior.GetEventsFunctions eventsBasedBehavior).
    intros functions. induction functions as [|f rest IH]; intros includes;
      [reflexivity|].
    cbn [fold_left]. rewrite methodCode_unfold. cbn zeta. cbn [snd]. apply IH. }
  rewrite Hcalls. split; [reflexivity|]. split.
  - intros ->. reflexivity.
  - intros Hadds. generalize (Behavior.GetEventsFunctions eventsBasedBehavior).
    intros functions. generalize includeFiles.
    induction functions as [|f rest IH]; intros includes; [reflexivity|].
    cbn [fold_left]. etransitivity; [|apply IH]. apply Hadds.
Qed.

End Generator.

Arguments GenerateRuntimeBehaviorPropertyTemplateCode {EventsFunction}.
Arguments GenerateUpdatePropertyFromBehaviorDataCode {EventsFunction}.
Arguments GenerateBehaviorOnDestroyToDeprecatedOnOwnerRemovedFromScene {EventsFunction}.
Arguments GenerateRuntimeBehaviorTemplateCode {EventsFunction}.
Arguments runtimeBehaviorDataInitializationCode {EventsFunction}.
Arguments runtimeBehaviorPropertyMethodsCode {EventsFunction}.
Arguments updateFromBehaviorCode {EventsFunction}.
Arguments functionName {EventsFunction}.
Arguments methodCode {EventsFunction}.
Arguments methodsLoop {EventsFunction}.
Arguments runtimeBehaviorMethodsCode {EventsFunction}.
Arguments GenerateRuntimeBehaviorCompleteCode {EventsFunction}.

(** *** The generator at work *)

Import EventsCodeGenerator BehaviorCodeGenerator_h.



(** C2 on an example: a property named speed is written under its name. *)
Lemma initialization_example :
  let speed := Property.Build_NamedPropertyDescriptor "speed" "Number" "5" true in
  let label := Property.Build_NamedPropertyDescriptor "label" "String" "hello" false in
  runtimeBehaviorDataInitializationCode ConvertToStringExplicit
    (Behavior.Mover [speed; label] []) =
  initializer_from_default "speed" ("Number(" +:+ dquote +:+ "5" +:+ dquote +:+ ") || 0")
  +:+ initializer_from_data "label" (dquote +:+ "hello" +:+ dquote)
  /\ FindAndReplace "speed" "DEFAULT_VALUE"
       (GeneratePropertyValueCode ConvertToStringExplicit speed) = "speed".
Proof.
  intros speed label.
  destruct (initialization_by_hidden_flag NamedFunction ConvertToStringExplicit
              (Behavior.Mover [speed; label] [])) as [Hcode Hname].
  split.
  - rewrite Hcode. vm_compute. reflexivity.
  - apply (Hname speed). vm_compute. reflexivity.
Defined.

(** C2 fails as stated: a hidden Boolean property named DEFAULT_VALUE is
    initialized by an assignment to the slot true, not to its own slot, and
    when it is not hidden the input data is read at the key true. *)
Lemma property_named_DEFAULT_VALUE :
  let hidden := Property.Build_NamedPropertyDescriptor "DEFAULT_VALUE" "Boolean" "true" true in
  let shown := Property.Build_NamedPropertyDescriptor "DEFAULT_VALUE" "Boolean" "true" false in
  GeneratePropertyValueCode ConvertToStringExplicit hidden = "true"
  /\ runtimeBehaviorDataInitializationCode ConvertToStringExplicit (Behavior.Mover [hidden] [])
     = initializer_from_default "true" "true"
  /\ String.eqb
       (runtimeBehaviorDataInitializationCode ConvertToStringExplicit (Behavior.Mover [hidden] []))
       (initializer_from_default "DEFAULT_VALUE" "true") = false
  /\ runtimeBehaviorDataInitializationCode ConvertToStringExplicit (Behavior.Mover [shown] [])
     = initializer_from_data "true" "true"
  /\ String.eqb
       (runtimeBehaviorDataInitializationCode ConvertToStringExplicit (Behavior.Mover [shown] []))
       (initializer_from_data "DEFAULT_VALUE" "true") = false.
Proof. vm_compute. auto. Qed.



(** C4 on an example: a Number property. *)
Lemma property_value_code_example :
  GeneratePropertyValueCode ConvertToStringExplicit
    (Property.Build_NamedPropertyDescriptor "speed" "Number" "5" false) =
  "Number(" +:+ ConvertToStringExplicit "5" +:+ ") || 0".
Proof.
  apply (proj1 (proj2 (property_value_code_by_type ConvertToStringExplicit
                         (Property.Build_NamedPropertyDescriptor
                            "speed" "Number" "5" false)))).
  reflexivity.
Defined.



(** The module of the behavior Mover of the extension Platformer, with one
    property and one events function. *)
Lemma module_text_example :
  let speed := Property.Build_NamedPropertyDescriptor "Speed" "Number" "5" false in
  let mover := Behavior.Mover [speed] ["doStep"] in
  fst (GenerateRuntimeBehaviorCompleteCode id ConvertToStringExplicit
         GetBehaviorPropertyGetterName GetBehaviorPropertySetterName
         GenerateEmptyFunctionCode "Platformer" mover "gdjs.evts"
         {[ "doStep" := "doStepInternal" ]} ∅ true) =
  module_text "gdjs.evts" "Mover" (Behavior.GetFullName mover) "Platformer"
    (runtimeBehaviorDataInitializationCode ConvertToStringExplicit mover)
    (updateFromBehaviorCode mover "gdjs.evts")
    (fst (runtimeBehaviorMethodsCode id GenerateEmptyFunctionCode mover "gdjs.evts"
            {[ "doStep" := "doStepInternal" ]} ∅ true))
    (runtimeBehaviorPropertyMethodsCode ConvertToStringExplicit
       GetBehaviorPropertyGetterName GetBehaviorPropertySetterName mover "gdjs.evts").
Proof.
  intros speed mover.
  apply (module_text_of_a_behavior NamedFunction id ConvertToStringExplicit
           GetBehaviorPropertyGetterName GetBehaviorPropertySetterName
           GenerateEmptyFunctionCode "Platformer" mover "gdjs.evts"
           {[ "doStep" := "doStepInternal" ]} ∅ true);
    vm_compute; reflexivity.
Defined.

(** The stand-in for the events code generator only adds an include file:
    the include file given is among those that the generator leaves. *)
Lemma include_files_example :
  bool_decide
    ("gd.js" ∈
     snd (GenerateRuntimeBehaviorCompleteCode id ConvertToStringExplicit
            GetBehaviorPropertyGetterName GetBehaviorPropertySetterName
            GenerateEmptyFunctionCode "Platformer" (Behavior.Mover [] ["doStep"])
            "gdjs.evts" ∅ {[ "gd.js" ]} true)) = true.
Proof.
  apply bool_decide_eq_true.
  apply (proj2 (proj2 (include_files_of_the_events_functions NamedFunction id
                         ConvertToStringExplicit GetBehaviorPropertyGetterName
                         GetBehaviorPropertySetterName GenerateEmptyFunctionCode
                         "Platformer" (Behavior.Mover [] ["doStep"])
                         "gdjs.evts" ∅ {[ "gd.js" ]} true))).
  - intros eventsFunction namespace name includes runtime.
    unfold GenerateEmptyFunctionCode. cbn [snd]. apply union_subseteq_r.
  - apply elem_of_singleton_2. reflexivity.
Defined.

End BehaviorCodeGenerator.

(** ** ExporterHelper.cpp *)

Module ExporterHelper.
Import GdString.

(** *** The include files *)

Definition InsertUnique (container : list string) (str : string) : list string :=
  if existsb (String.eqb str) container then container else container ++ [str].

Definition AddLibsInclude
  (pixiRenderers cocosRenderers websocketDebuggerClient : bool)
  (includesFiles : list string) : list string :=
  let includesFiles :=
    fold_left InsertUnique
      [ "libs/jshashtable.js"; "gd.js"; "gd-splash-image.js"; "libs/hshg.js";
        "libs/rbush.js"; "inputmanager.js"; "jsonmanager.js"; "timemanager.js";
        "runtimeobject.js"; "profiler.js"; "runtimescene.js"; "scenestack.js";
        "polygon.js"; "force.js"; "layer.js"; "timer.js"; "runtimegame.js";
        "variable.js"; "variablescontainer.js"; "oncetriggers.js";
        "runtimebehavior.js"; "spriteruntimeobject.js";
        "events-tools/commontools.js"; "events-tools/runtimescenetools.js";
        "events-tools/inputtools.js"; "events-tools/objecttools.js";
        "events-tools/cameratools.js"; "events-tools/soundtools.js";
        "events-tools/storagetools.js"; "events-tools/stringtools.js";
        "events-tools/windowtools.js"; "events-tools/networktools.js" ]
      includesFiles in
  let includesFiles :=
    if websocketDebuggerClient
    then fold_left InsertUnique
           [ "websocket-debugger-client/hot-reloader.js";
             "websocket-debugger-client/websocket-debugger-client.js" ]
           includesFiles
    else includesFiles in
  let includesFiles :=
    if pixiRenderers
    then fold_left InsertUnique
           [ "pixi-renderers/pixi.js"; "pixi-renderers/pixi-filters-tools.js";
             "pixi-renderers/runtimegame-pixi-renderer.js";
             "pixi-renderers/runtimescene-pixi-renderer.js";
             "pixi-renderers/layer-pixi-renderer.js";
             "pixi-renderers/pixi-image-manager.js";
             "pixi-renderers/spriteruntimeobject-pixi-renderer.js";
             "pixi-renderers/loadingscreen-pixi-renderer.js";
             "howler-sound-manager/howler.min.js";
             "howler-sound-manager/howler-sound-manager.js";
             "fontfaceobserver-font-manager/fontfaceobserver.js";
             "fontfaceobserver-font-manager/fontfaceobserver-font-manager.js" ]
           includesFiles
    else includesFiles in
  if cocosRenderers
  then fold_left InsertUnique
         [ "cocos-renderers/cocos-director-manager.js";
           "cocos-renderers/cocos-image-manager.js";
           "cocos-renderers/cocos-tools.js";
           "cocos-renderers/layer-cocos-renderer.js";
           "cocos-renderers/loadingscreen-cocos-renderer.js";
           "cocos-renderers/runtimegame-cocos-renderer.js";
           "cocos-renderers/runtimescene-cocos-renderer.js";
           "cocos-renderers/spriteruntimeobject-cocos-renderer.js";
           "cocos-sound-manager/cocos-sound-manager.js";
           "fontfaceobserver-font-manager/fontfaceobserver.js";
           "fontfaceobserver-font-manager/fontfaceobserver-font-manager.js" ]
         includesFiles
  else includesFiles.

(** A value with the proof of what it is, to keep the bound of the loop at
    hand. *)
Definition inspect {A} (a : A) : {b : A | a = b} := exist _ a eq_refl.

(** One loop of RemoveIncludes: [for (i = 0; i < size;)], the element at [i]
    erased in place when it is to go, [i] moved on when it is not. *)
Equations? eraseLoop (toGo : string -> bool) (includesFiles : list string)
  (i : nat) : list string by wf (length includesFiles - i) lt :=
  eraseLoop toGo includesFiles i with inspect (includesFiles !! i) => {
    | exist _ (Some includeFile) _ =>
        if toGo includeFile
        then eraseLoop toGo (delete i includesFiles) i
        else eraseLoop toGo includesFiles (S i);
    | exist _ None _ => includesFiles }.
Proof.
  - assert (i < length includesFiles) by (eapply lookup_lt_Some; eassumption).
    rewrite length_delete by eauto. lia.
  - assert (i < length includesFiles) by (eapply lookup_lt_Some; eassumption).
    lia.
Qed.

Definition RemoveIncludes (pixiRenderers cocosRenderers : bool)
  (includesFiles : list string) : list string :=
  let includesFiles :=
    if pixiRenderers
    then eraseLoop
           (fun includeFile =>
              contains includeFile "pixi-renderer"
              || contains includeFile "pixi-filter")
           includesFiles 0
    else includesFiles in
  if cocosRenderers
  then eraseLoop
         (fun includeFile =>
            contains includeFile "cocos-renderer"
            || contains includeFile "cocos-shader")
         includesFiles 0
  else includesFiles.

(** *** The runtime options document *)

(** Modelled from the spec: gd::SerializerElement is declared in GDCore.  The
    document of the spec is a tree: an element has a value, attributes by
    name, and children in the order they were added, each under a name.
    AddChild of the source returns the new child, which the calls chained on
    it fill in; here the child is added once it is filled in. *)
Inductive SerializerValue :=
| BoolValue (b : bool)
| StringValue (s : string)
| IntValue (i : Z).

#[warnings="-register-all"]
Inductive SerializerElement :=
| MakeElement (value : option SerializerValue)
              (attributes : gmap string SerializerValue)
              (arrayOf : string)
              (children : list (string * SerializerElement)).

Definition emptyElement : SerializerElement := MakeElement None ∅ EmptyString [].

Definition GetValue (element : SerializerElement) : option SerializerValue :=
  match element with MakeElement value _ _ _ => value end.

Definition GetAttributes (element : SerializerElement) : gmap string SerializerValue :=
  match element with MakeElement _ attributes _ _ => attributes end.

Definition GetAllChildren (element : SerializerElement)
  : list (string * SerializerElement) :=
  match element with MakeElement _ _ _ children => children end.

Definition SetValue (element : SerializerElement) (value : SerializerValue)
  : SerializerElement :=
  match element with
  | MakeElement _ attributes arrayOf children =>
      MakeElement (Some value) attributes arrayOf children
  end.

Definition SetBoolValue (element : SerializerElement) (b : bool) : SerializerElement :=
  SetValue element (BoolValue b).

Definition SetAttribute (element : SerializerElement) (name : string)
  (value : SerializerValue) : SerializerElement :=
  match element with
  | MakeElement v attributes arrayOf children =>
      MakeElement v (<[name := value]> attributes) arrayOf children
  end.

Definition SetStringAttribute (element : SerializerElement) (name value : string)
  : SerializerElement :=
  SetAttribute element name (StringValue value).

Definition SetIntAttribute (element : SerializerElement) (name : string) (value : Z)
  : SerializerElement :=
  SetAttribute element name (IntValue value).

Definition ConsiderAsArrayOf (element : SerializerElement) (name : string)
  : SerializerElement :=
  match element with
  | MakeElement v attributes _ children => MakeElement v attributes name children
  end.

Definition AddChild (element : SerializerElement) (name : string)
  (child : SerializerElement) : SerializerElement :=
  match element with
  | MakeElement v attributes arrayOf children =>
      MakeElement v attributes arrayOf (children ++ [(name, child)])
  end.

(** The children of [element] named [name], in order. *)
Definition GetChildren (element : SerializerElement) (name : string)
  : list SerializerElement :=
  map snd (List.filter (fun child => String.eqb (fst child) name)
             (GetAllChildren element)).

Definition HasChild (element : SerializerElement) (name : string) : bool :=
  existsb (fun child => String.eqb (fst child) name) (GetAllChildren element).

(** gd::String::From on an index: its decimal digits. *)
Definition From (i : nat) : string := NilEmpty.string_of_uint (Nat.to_uint i).

(** A source file of the project: its language and its file name. *)
Record SourceFile := {
  GetLanguage : string;
  GetFileName : string
}.

(** gd::Project, as the export of the include files reads it: the include
    files of its effects, in the order of the set that
    EffectsCodeGenerator::GenerateEffectsIncludeFiles fills; for every
    layout, the code that the layout code generator gives and the include
    files it asks for, in the order of their set; the source files, a
    missing one being [None]. *)
Record Project := {
  effectsIncludeFiles : list string;
  layoutsCode : list (string * list string);
  GetAllSourceFiles : list (option SourceFile)
}.

Record PreviewExportOptions := {
  project : Project;
  exportPath : string;
  layoutName : string;
  externalLayoutName : string;
  includeFileHashes : gmap string Z
}.

(** The ExporterHelper object: its directories and, of its file system,
    whether a write succeeds.  The last two steps of a preview copy the
    include files and write index.html; they are taken by what they return. *)
Record Exporter := {
  gdjsRoot : string;
  codeOutputDir : string;
  WriteToFile : string -> string -> bool;
  ExportIncludesAndLibs : list string -> string -> list string;
  ExportPixiIndexFile : list string -> bool
}.

(** What a call of ExportProjectForPixiPreview leaves: whether it returned
    true, the runtime options when it came to build them, and the include
    files at its return. *)
Record PreviewExport := {
  succeeded : bool;
  runtimeGameOptions : option SerializerElement;
  finalIncludesFiles : list string
}.

Definition ExportEffectIncludes (project : Project) (includesFiles : list string)
  : bool * list string :=
  (true, fold_left InsertUnique (effectsIncludeFiles project) includesFiles).

(** The loop of ExportEventsCode from layout [i] on; the include files are
    those reached when the loop stops. *)
Fixpoint ExportEventsCode_from (this : Exporter) (i : nat)
  (layouts : list (string * list string))
  (outputDir : string) (includesFiles : list string) : bool * list string :=
  match layouts with
  | [] => (true, includesFiles)
  | (eventsOutput, eventsIncludes) :: rest =>
      let filename := outputDir +:+ "/" +:+ "code" +:+ From i +:+ ".js" in
      if WriteToFile this filename eventsOutput
      then
        let includesFiles := fold_left InsertUnique eventsIncludes includesFiles in
        let includesFiles := InsertUnique includesFiles filename in
        ExportEventsCode_from this (S i) rest outputDir includesFiles
      else (false, includesFiles)
  end.

Definition ExportEventsCode (this : Exporter) (project : Project)
  (outputDir : string) (includesFiles : list string) (exportForPreview : bool)
  : bool * list string :=
  ExportEventsCode_from this 0 (layoutsCode project) outputDir includesFiles.

Fixpoint ExportExternalSourceFiles_from (i : nat) (files : list (option SourceFile))
  (outputDir : string) (includesFiles : list string) : list string :=
  match files with
  | [] => includesFiles
  | file :: rest =>
      let includesFiles :=
        match file with
        | None => includesFiles
        | Some file =>
            if negb (String.eqb (GetLanguage file) "Javascript")
            then includesFiles
            else InsertUnique includesFiles
                   (outputDir +:+ "ext-code" +:+ From i +:+ ".js")
        end in
      ExportExternalSourceFiles_from (S i) rest outputDir includesFiles
  end.

Definition ExportExternalSourceFiles (project : Project)
  (outputDir : string) (includesFiles : list string) : bool * list string :=
  (true,
   ExportExternalSourceFiles_from 0 (GetAllSourceFiles project) outputDir includesFiles).

(** The first part of ExportProjectForPixiPreview: the include files of the
    libraries, the effects, the code of the events and the source files;
    [None] when the export has returned false.  The steps on the output
    directory, the resources and the font resources before it, and the
    stripping of the project after it, do not touch the include files. *)
Definition collectedIncludesFiles (this : Exporter) (options : PreviewExportOptions)
  : option (list string) :=
  let includesFiles := [] in
  let exportedProject := project options in
  let includesFiles := AddLibsInclude true false true includesFiles in
  let includesFiles := snd (ExportEffectIncludes exportedProject includesFiles) in
  let '(exported, includesFiles) :=
    ExportEventsCode this exportedProject (codeOutputDir this) includesFiles true in
  if negb exported then None
  else
    let '(exported, includesFiles) :=
      ExportExternalSourceFiles exportedProject (codeOutputDir this) includesFiles in
    if negb exported then None
    else Some includesFiles.

(** The second part: the include files are stripped to the Pixi.js ones. *)
Definition previewIncludesFiles (this : Exporter) (options : PreviewExportOptions)
  : option (list string) :=
  match collectedIncludesFiles this options with
  | Some includesFiles => Some (RemoveIncludes false true includesFiles)
  | None => None
  end.

(** The third part: the setup options passed to gdjs.RuntimeGame. *)
Definition previewRuntimeGameOptions (options : PreviewExportOptions)
  (includesFiles : list string) : SerializerElement :=
  let runtimeGameOptions := emptyElement in
  let runtimeGameOptions :=
    AddChild runtimeGameOptions "isPreview" (SetBoolValue emptyElement true) in
  let runtimeGameOptions :=
    if negb (String.eqb (externalLayoutName options) EmptyString)
    then AddChild runtimeGameOptions "injectExternalLayout"
           (SetValue emptyElement (StringValue (externalLayoutName options)))
    else runtimeGameOptions in
  let scriptFilesElement := ConsiderAsArrayOf emptyElement "scriptFile" in
  let scriptFilesElement :=
    fold_left
      (fun scriptFilesElement includeFile =>
         let hash :=
           match includeFileHashes options !! includeFile with
           | Some hash => hash
           | None => 0%Z
           end in
         AddChild scriptFilesElement "scriptFile"
           (SetIntAttribute
              (SetStringAttribute emptyElement "path" includeFile) "hash" hash))
      includesFiles scriptFilesElement in
  AddChild runtimeGameOptions "scriptFiles" scriptFilesElement.

Definition ExportProjectForPixiPreview (this : Exporter)
  (options : PreviewExportOptions) : PreviewExport :=
  match previewIncludesFiles this options with
  | None => {| succeeded := false; runtimeGameOptions := None;
               finalIncludesFiles := [] |}
  | Some includesFiles =>
      let runtimeGameOptions := previewRuntimeGameOptions options includesFiles in
      let includesFiles := includesFiles ++ [codeOutputDir this +:+ "/data.js"] in
      let includesFiles :=
        ExportIncludesAndLibs this includesFiles (exportPath options) in
      {| succeeded := ExportPixiIndexFile this includesFiles;
         runtimeGameOptions := Some runtimeGameOptions;
         finalIncludesFiles := includesFiles |}
  end.

(** The script files written in the runtime options, and their paths. *)
Definition scriptFiles (runtimeGameOptions : SerializerElement)
  : list SerializerElement :=
  concat (map (fun element => GetChildren element "scriptFile")
            (GetChildren runtimeGameOptions "scriptFiles")).

Definition scriptFile (path : string) (hash : Z) : SerializerElement :=
  SetIntAttribute (SetStringAttribute emptyElement "path" path) "hash" hash.

(** Whether a path has a marker of the renderers that RemoveIncludes is
    asked to remove. *)
Definition excluded (pixiRenderers cocosRenderers : bool) (includeFile : string)
  : bool :=
  (pixiRenderers
   && (contains includeFile "pixi-renderer" || contains includeFile "pixi-filter"))
  || (cocosRenderers
      && (contains includeFile "cocos-renderer" || contains includeFile "cocos-shader")).

(** [after] is [before] with paths that [before] does not have put at its
    end. *)
Definition appended (before after : list string) : Prop :=
  exists added,
    after = before ++ added /\ (forall x, In x added -> ~ In x before).

(** The file that ExportEventsCode writes for the layout [i]. *)
Definition codeFile (outputDir : string) (i : nat) : string :=
  outputDir +:+ "/" +:+ "code" +:+ From i +:+ ".js".

(** Every layout of the project has its code written. *)
Definition layoutsWritten (this : Exporter) (project : Project) (outputDir : string)
  : Prop :=
  forall i eventsOutput eventsIncludes,
    layoutsCode project !! i = Some (eventsOutput, eventsIncludes) ->
    WriteToFile this (codeFile outputDir i) eventsOutput = true.

(** A preview to run the exporter on. *)
Definition previewExporter : Exporter :=
  {| gdjsRoot := "/gdjs";
     codeOutputDir := "/tmp/preview-code";
     WriteToFile := fun _ _ => true;
     ExportIncludesAndLibs := fun includesFiles _ => includesFiles;
     ExportPixiIndexFile := fun _ => true |}.

Definition textProject : Project :=
  {| effectsIncludeFiles := [ "Effects/night-pixi-filter.js" ];
     layoutsCode :=
       [ ("gdjs.SceneCode = {};",
          [ "Extensions/TextObject/textruntimeobject-cocos-renderer.js";
            "Extensions/TextObject/textruntimeobject-pixi-renderer.js";
            "Extensions/TextObject/textruntimeobject.js" ]) ];
     GetAllSourceFiles :=
       [ None; Some {| GetLanguage := "Javascript"; GetFileName := "helpers.js" |} ] |}.

Definition previewOptions (externalLayout : string) : PreviewExportOptions :=
  {| project := textProject;
     exportPath := "/tmp/preview";
     layoutName := "Scene";
     externalLayoutName := externalLayout;
     includeFileHashes := {[ "gd.js" := 42%Z ]} |}.

(** The runtime options that the example preview builds. *)
Definition previewDocument (externalLayout : string) : SerializerElement :=
  match
    runtimeGameOptions
      (ExportProjectForPixiPreview previewExporter (previewOptions externalLayout))
  with
  | Some doc => doc
  | None => emptyElement
  end.

(** The include files of the example preview when its runtime options are
    built. *)
Definition previewScripts : list string :=
  match previewIncludesFiles previewExporter (previewOptions EmptyString) with
  | Some includesFiles => includesFiles
  | None => []
  end.

(** An exporter that cannot write the code of the second layout, and a
    project of three layouts. *)
Definition failingExporter : Exporter :=
  {| gdjsRoot := "/gdjs";
     codeOutputDir := "/tmp/preview-code";
     WriteToFile :=
       fun filename _ => negb (String.eqb filename "/tmp/preview-code/code1.js");
     ExportIncludesAndLibs := fun includesFiles _ => includesFiles;
     ExportPixiIndexFile := fun _ => true |}.

Definition threeScenes : Project :=
  {| effectsIncludeFiles := [];
     layoutsCode :=
       [ ("gdjs.MenuCode = {};", [ "Extensions/menu.js" ]);
         ("gdjs.GameCode = {};", [ "Extensions/game.js" ]);
         ("gdjs.EndCode = {};", [ "Extensions/end.js" ]) ];
     GetAllSourceFiles := [] |}.

(** *** Facts on the include files *)

Lemma InsertUnique_present (container : list string) (str : string) :
  In str container -> InsertUnique container str = container.
Proof.
  intros H. unfold InsertUnique.
  assert (existsb (String.eqb str) container = true) as ->; [|reflexivity].
  apply existsb_exists. exists str. split; [exact H|apply String.eqb_refl].
Qed.

Lemma InsertUnique_absent (container : list string) (str : string) :
  ~ In str container -> InsertUnique container str = container ++ [str].
Proof.
  intros H. unfold InsertUnique.
  destruct (existsb (String.eqb str) container) eqn:E; [|reflexivity].
  apply existsb_exists in E as (x & Hx & Heq).
  apply String.eqb_eq in Heq. subst x. contradiction.
Qed.

Lemma InsertUnique_In (container : list string) (str : string) :
  In str (InsertUnique container str).
Proof.
  destruct (in_dec string_dec str container) as [H|H].
  - rewrite InsertUnique_present; assumption.
  - rewrite InsertUnique_absent by assumption. apply in_or_app. right. left. reflexivity.
Qed.

Lemma InsertUnique_NoDup (container : list string) (str : string) :
  List.NoDup container -> List.NoDup (InsertUnique container str).
Proof.
  intros Hnd. destruct (in_dec string_dec str container) as [H|H].
  - rewrite InsertUnique_present; assumption.
  - rewrite InsertUnique_absent by assumption.
    apply List.NoDup_app; [exact Hnd|constructor; [intros []|constructor]|].
    intros a Ha [<-|[]]. contradiction.
Qed.

Lemma InsertUnique_all_NoDup (paths container : list string) :
  List.NoDup container -> List.NoDup (fold_left InsertUnique paths container).
Proof.
  revert container. induction paths as [|p paths IH]; intros container H; [exact H|].
  cbn [fold_left]. apply IH, InsertUnique_NoDup, H.
Qed.

Lemma InsertUnique_again (container : list string) (str : string) (n : nat) :
  Nat.iter (S n) (fun c => InsertUnique c str) container = InsertUnique container str.
Proof.
  induction n as [|n IH]; [reflexivity|].
  change (InsertUnique (Nat.iter (S n) (fun c => InsertUnique c str) container) str
          = InsertUnique container str).
  rewrite IH. apply InsertUnique_present, InsertUnique_In.
Qed.

Lemma filter_filter {A} (f g : A -> bool) (l : list A) :
  List.filter g (List.filter f l) = List.filter (fun x => f x && g x) l.
Proof.
  induction l as [|x l IH]; [reflexivity|].
  cbn [List.filter]. destruct (f x); cbn [List.filter andb]; rewrite IH; reflexivity.
Qed.

(** The loop from [i] leaves what is before [i] and, of the rest, what is
    not to go. *)
Lemma eraseLoop_filter (toGo : string -> bool) (includesFiles : list string) (i : nat) :
  eraseLoop toGo includesFiles i =
  take i includesFiles ++
  List.filter (fun f => negb (toGo f)) (drop i includesFiles).
Proof.
  funelim (eraseLoop toGo includesFiles i).
  - clear H1 Heqcall.
    assert (i < length includesFiles) as Hi by (eapply lookup_lt_Some; eassumption).
    rewrite (drop_S _ _ _ e). cbn [List.filter].
    destruct (toGo includeFile); cbn [negb].
    + rewrite H, delete_take_drop.
      rewrite take_app_le by (rewrite length_take; lia).
      rewrite take_take, Nat.min_id.
      rewrite drop_app_length' by (rewrite length_take; lia). reflexivity.
    + rewrite H0, (take_S_r _ _ _ e), <- app_assoc. reflexivity.
  - clear H Heqcall. apply lookup_ge_None in e.
    rewrite take_ge, drop_ge by lia. cbn. rewrite app_nil_r. reflexivity.
Qed.

Lemma RemoveIncludes_filter (pixiRenderers cocosRenderers : bool)
  (includesFiles : list string) :
  RemoveIncludes pixiRenderers cocosRenderers includesFiles =
  List.filter (fun f => negb (excluded pixiRenderers cocosRenderers f)) includesFiles.
Proof.
  unfold RemoveIncludes, excluded.
  destruct pixiRenderers, cocosRenderers;
    rewrite ?eraseLoop_filter, ?take_0, ?drop_0, ?app_nil_l;
    rewrite ?eraseLoop_filter, ?take_0, ?drop_0, ?app_nil_l;
    cbn [andb orb]; rewrite ?filter_filter.
  - apply List.filter_ext. intros f.
    destruct (contains f "pixi-renderer"), (contains f "pixi-filter"); reflexivity.
  - apply List.filter_ext. intros f. rewrite orb_false_r. reflexivity.
  - reflexivity.
  - symmetry. apply List.forallb_filter_id, forallb_forall. reflexivity.
Qed.

Lemma RemoveIncludes_In (pixiRenderers cocosRenderers : bool)
  (includesFiles : list string) (includeFile : string) :
  In includeFile (RemoveIncludes pixiRenderers cocosRenderers includesFiles) <->
  In includeFile includesFiles
  /\ excluded pixiRenderers cocosRenderers includeFile = false.
Proof. rewrite RemoveIncludes_filter, List.filter_In, negb_true_iff. reflexivity. Qed.

(** *** Facts on the runtime options *)

Lemma AddChild_loop {A} (name : string) (make : A -> SerializerElement) (l : list A)
  value attributes arrayOf children :
  fold_left (fun element x => AddChild element name (make x)) l
            (MakeElement value attributes arrayOf children) =
  MakeElement value attributes arrayOf
              (children ++ map (fun x => (name, make x)) l).
Proof.
  revert children. induction l as [|x l IH]; intros children.
  - cbn. rewrite app_nil_r. reflexivity.
  - cbn [fold_left map AddChild]. rewrite IH, <- app_assoc. reflexivity.
Qed.

Lemma GetChildren_all {A} (name : string) (make : A -> SerializerElement) (l : list A) :
  map snd (List.filter (fun child => String.eqb (fst child) name)
             (map (fun x => (name, make x)) l)) =
  map make l.
Proof.
  induction l as [|x l IH]; [reflexivity|].
  cbn [map List.filter fst]. rewrite String.eqb_refl. cbn [map snd]. rewrite IH.
  reflexivity.
Qed.

Lemma scriptFiles_previewRuntimeGameOptions options includesFiles :
  scriptFiles (previewRuntimeGameOptions options includesFiles) =
  map (fun includeFile =>
         scriptFile includeFile
           (match includeFileHashes options !! includeFile with
            | Some hash => hash
            | None => 0%Z
            end))
      includesFiles.
Proof.
  unfold previewRuntimeGameOptions, scriptFiles, GetChildren.
  unfold ConsiderAsArrayOf, emptyElement. rewrite AddChild_loop. cbn [app].
  destruct (negb (String.eqb (externalLayoutName options) EmptyString));
    cbn; rewrite app_nil_r; apply GetChildren_all.
Qed.

Lemma runtimeGameOptions_built this options doc :
  runtimeGameOptions (ExportProjectForPixiPreview this options) = Some doc ->
  exists includesFiles,
    previewIncludesFiles this options = Some includesFiles
    /\ doc = previewRuntimeGameOptions options includesFiles.
Proof.
  unfold ExportProjectForPixiPreview.
  destruct (previewIncludesFiles this options) as [includesFiles|]; cbn.
  - intros [= <-]. exists includesFiles. auto.
  - discriminate.
Qed.

Lemma previewIncludesFiles_removed this options includesFiles :
  previewIncludesFiles this options = Some includesFiles ->
  exists collected,
    collectedIncludesFiles this options = Some collected
    /\ includesFiles = RemoveIncludes false true collected.
Proof.
  unfold previewIncludesFiles.
  destruct (collectedIncludesFiles this options) as [collected|]; [|discriminate].
  intros [= <-]. exists collected. auto.
Qed.

Lemma ExportEventsCode_from_NoDup this i layouts outputDir includesFiles :
  List.NoDup includesFiles ->
  List.NoDup (snd (ExportEventsCode_from this i layouts outputDir includesFiles)).
Proof.
  revert i includesFiles.
  induction layouts as [|[eventsOutput eventsIncludes] layouts IH];
    intros i includesFiles Hnd; [exact Hnd|].
  cbn [ExportEventsCode_from]. destruct (WriteToFile this _ eventsOutput); [|exact Hnd].
  apply IH, InsertUnique_NoDup, InsertUnique_all_NoDup, Hnd.
Qed.

Lemma ExportExternalSourceFiles_from_NoDup i files outputDir includesFiles :
  List.NoDup includesFiles ->
  List.NoDup (ExportExternalSourceFiles_from i files outputDir includesFiles).
Proof.
  revert i includesFiles.
  induction files as [|file files IH]; intros i includesFiles Hnd; [exact Hnd|].
  cbn [ExportExternalSourceFiles_from]. apply IH.
  destruct file as [file|]; [|exact Hnd].
  destruct (negb _); [exact Hnd|apply InsertUnique_NoDup, Hnd].
Qed.

Lemma AddLibsInclude_NoDup pixiRenderers cocosRenderers websocketDebuggerClient
  includesFiles :
  List.NoDup includesFiles ->
  List.NoDup (AddLibsInclude pixiRenderers cocosRenderers websocketDebuggerClient
                includesFiles).
Proof.
  intros Hnd. unfold AddLibsInclude.
  destruct pixiRenderers, cocosRenderers, websocketDebuggerClient;
    repeat apply InsertUnique_all_NoDup; exact Hnd.
Qed.

(** *** Facts on what the insertions leave *)

Lemma InsertUnique_In_iff (container : list string) (str x : string) :
  In x (InsertUnique container str) <-> In x container \/ x = str.
Proof.
  destruct (in_dec string_dec str container) as [H|H].
  - rewrite InsertUnique_present by exact H. split; [auto|].
    intros [Hx| ->]; assumption.
  - rewrite InsertUnique_absent by exact H. rewrite in_app_iff. cbn [In].
    intuition congruence.
Qed.

Lemma InsertUnique_all_In (paths container : list string) (x : string) :
  In x (fold_left InsertUnique paths container) <-> In x container \/ In x paths.
Proof.
  revert container. induction paths as [|p paths IH]; intros container.
  - cbn. tauto.
  - cbn [fold_left In]. rewrite IH, InsertUnique_In_iff. intuition congruence.
Qed.

Lemma InsertUnique_all_present (paths container : list string) :
  (forall x, In x paths -> In x container) ->
  fold_left InsertUnique paths container = container.
Proof.
  induction paths as [|p paths IH]; intros H; [reflexivity|].
  cbn [fold_left]. rewrite InsertUnique_present by (apply H; left; reflexivity).
  apply IH. intros x Hx. apply H. right. exact Hx.
Qed.

Lemma appended_refl (l : list string) : appended l l.
Proof. exists []. split; [symmetry; apply app_nil_r|intros x []]. Qed.

Lemma appended_trans (l1 l2 l3 : list string) :
  appended l1 l2 -> appended l2 l3 -> appended l1 l3.
Proof.
  intros (a & -> & Ha) (b & -> & Hb). exists (a ++ b). split.
  - symmetry. apply app_assoc.
  - intros x Hx. apply in_app_iff in Hx as [Hx|Hx]; [apply Ha, Hx|].
    intros Hin. apply (Hb x Hx). apply in_or_app. left. exact Hin.
Qed.

Lemma InsertUnique_appended (container : list string) (str : string) :
  appended container (InsertUnique container str).
Proof.
  destruct (in_dec string_dec str container) as [H|H].
  - rewrite InsertUnique_present by exact H. apply appended_refl.
  - rewrite InsertUnique_absent by exact H. exists [str]. split; [reflexivity|].
    intros x [<-|[]]. exact H.
Qed.

Lemma InsertUnique_all_appended (paths container : list string) :
  appended container (fold_left InsertUnique paths container).
Proof.
  revert container. induction paths as [|p paths IH]; intros container.
  - apply appended_refl.
  - cbn [fold_left]. eapply appended_trans; [apply InsertUnique_appended|apply IH].
Qed.

Lemma AddLibsInclude_appended pixiRenderers cocosRenderers websocketDebuggerClient
  includesFiles :
  appended includesFiles
    (AddLibsInclude pixiRenderers cocosRenderers websocketDebuggerClient includesFiles).
Proof.
  unfold AddLibsInclude.
  destruct pixiRenderers, cocosRenderers, websocketDebuggerClient;
    repeat (eapply appended_trans; [|apply InsertUnique_all_appended]);
    apply appended_refl.
Qed.

Lemma ExportEventsCode_from_appended this i layouts outputDir includesFiles :
  appended includesFiles
    (snd (ExportEventsCode_from this i layouts outputDir includesFiles)).
Proof.
  revert i includesFiles.
  induction layouts as [|[eventsOutput eventsIncludes] layouts IH];
    intros i includesFiles; [apply appended_refl|].
  cbn [ExportEventsCode_from].
  destruct (WriteToFile this _ eventsOutput); [|apply appended_refl].
  eapply appended_trans; [|apply IH].
  eapply appended_trans; [apply InsertUnique_all_appended|apply InsertUnique_appended].
Qed.

Lemma ExportExternalSourceFiles_from_appended i files outputDir includesFiles :
  appended includesFiles
    (ExportExternalSourceFiles_from i files outputDir includesFiles).
Proof.
  revert i includesFiles.
  induction files as [|file files IH]; intros i includesFiles; [apply appended_refl|].
  cbn [ExportExternalSourceFiles_from]. eapply appended_trans; [|apply IH].
  destruct file as [file|]; [|apply appended_refl].
  destruct (negb _); [apply appended_refl|apply InsertUnique_appended].
Qed.

Lemma ExportEventsCode_from_written this i layouts outputDir includesFiles :
  fst (ExportEventsCode_from this i layouts outputDir includesFiles) = true <->
  (forall k eventsOutput eventsIncludes,
     layouts !! k = Some (eventsOutput, eventsIncludes) ->
     WriteToFile this (codeFile outputDir (i + k)) eventsOutput = true).
Proof.
  revert i includesFiles.
  induction layouts as [|[eventsOutput eventsIncludes] layouts IH];
    intros i includesFiles.
  - cbn. split; [intros _ k o e H; discriminate|reflexivity].
  - cbn [ExportEventsCode_from]. fold (codeFile outputDir i).
    destruct (WriteToFile this (codeFile outputDir i) eventsOutput) eqn:Hw.
    + rewrite IH. split.
      * intros H [|k] o e Hk.
        -- cbn in Hk. injection Hk as <- <-. rewrite Nat.add_0_r. exact Hw.
        -- rewrite Nat.add_succ_r. apply (H k o e). exact Hk.
      * intros H k o e Hk. specialize (H (S k) o e Hk).
        rewrite Nat.add_succ_r in H. exact H.
    + cbn [fst]. split; [discriminate|].
      intros H. specialize (H 0 eventsOutput eventsIncludes eq_refl).
      rewrite Nat.add_0_r in H. congruence.
Qed.

Lemma ExportEventsCode_from_stops this i layouts outputDir includesFiles k
  eventsOutput eventsIncludes :
  (forall j output includes,
     j < k -> layouts !! j = Some (output, includes) ->
     WriteToFile this (codeFile outputDir (i + j)) output = true) ->
  layouts !! k = Some (eventsOutput, eventsIncludes) ->
  WriteToFile this (codeFile outputDir (i + k)) eventsOutput = false ->
  ExportEventsCode_from this i layouts outputDir includesFiles =
  (false,
   snd (ExportEventsCode_from this i (take k layouts) outputDir includesFiles)).
Proof.
  revert i layouts includesFiles.
  induction k as [|k IH]; intros i layouts includesFiles Hbefore Hk Hw.
  - destruct layouts as [|[o e] layouts]; [discriminate|].
    cbn in Hk. injection Hk as -> ->. rewrite Nat.add_0_r in Hw.
    cbn [ExportEventsCode_from take]. fold (codeFile outputDir i). rewrite Hw.
    reflexivity.
  - destruct layouts as [|[o e] layouts]; [discriminate|].
    cbn in Hk. cbn [ExportEventsCode_from take firstn]. fold (codeFile outputDir i).
    assert (WriteToFile this (codeFile outputDir i) o = true) as ->.
    { specialize (Hbefore 0 o e (Nat.lt_0_succ k) eq_refl).
      rewrite Nat.add_0_r in Hbefore. exact Hbefore. }
    apply IH.
    + intros j output includes Hj Hl.
      specialize (Hbefore (S j) output includes (proj1 (Nat.succ_lt_mono j k) Hj) Hl).
      rewrite Nat.add_succ_r in Hbefore. exact Hbefore.
    + exact Hk.
    + rewrite Nat.add_succ_r in Hw. exact Hw.
Qed.

Lemma ExportEventsCode_from_In this i layouts outputDir includesFiles x :
  fst (ExportEventsCode_from this i layouts outputDir includesFiles) = true ->
  In x (snd (ExportEventsCode_from this i layouts outputDir includesFiles)) <->
  In x includesFiles
  \/ exists k eventsOutput eventsIncludes,
       layouts !! k = Some (eventsOutput, eventsIncludes)
       /\ (In x eventsIncludes \/ x = codeFile outputDir (i + k)).
Proof.
  revert i includesFiles.
  induction layouts as [|[eventsOutput eventsIncludes] layouts IH];
    intros i includesFiles.
  - cbn. intros _. split; [auto|]. intros [H|(k & o & e & H & _)]; [exact H|].
    discriminate.
  - cbn [ExportEventsCode_from]. fold (codeFile outputDir i).
    destruct (WriteToFile this (codeFile outputDir i) eventsOutput) eqn:Hw;
      [|discriminate].
    intros Hok. rewrite (IH _ _ Hok), InsertUnique_In_iff, InsertUnique_all_In.
    split.
    + intros [[[H|H]|H]|(k & o & e & Hk & H)].
      * left. exact H.
      * right. exists 0, eventsOutput, eventsIncludes. split; [reflexivity|].
        left. exact H.
      * right. exists 0, eventsOutput, eventsIncludes. split; [reflexivity|].
        right. rewrite Nat.add_0_r. exact H.
      * right. exists (S k), o, e. split; [exact Hk|].
        rewrite Nat.add_succ_r. exact H.
    + intros [H|([|k] & o & e & Hk & H)].
      * left. left. left. exact H.
      * cbn in Hk. injection Hk as <- <-. rewrite Nat.add_0_r in H.
        left. destruct H as [H|H]; [left; right; exact H|right; exact H].
      * right. exists k, o, e. split; [exact Hk|].
        rewrite Nat.add_succ_r in H. exact H.
Qed.

Lemma ExportExternalSourceFiles_from_In i files outputDir includesFiles x :
  In x (ExportExternalSourceFiles_from i files outputDir includesFiles) <->
  In x includesFiles
  \/ exists k file,
       files !! k = Some (Some file)
       /\ GetLanguage file = "Javascript"
       /\ x = outputDir +:+ "ext-code" +:+ From (i + k) +:+ ".js".
Proof.
  revert i includesFiles.
  induction files as [|file files IH]; intros i includesFiles.
  - cbn. split; [auto|]. intros [H|(k & f & H & _)]; [exact H|discriminate].
  - cbn [ExportExternalSourceFiles_from]. rewrite IH. split.
    + intros [H|(k & f & Hk & Hl & Hx)].
      * destruct file as [file|]; [|left; exact H].
        destruct (String.eqb_spec (GetLanguage file) "Javascript") as [E|E];
          cbn [negb] in H; [|left; exact H].
        apply InsertUnique_In_iff in H as [H|H]; [left; exact H|].
        right. exists 0, file. rewrite Nat.add_0_r. auto.
      * right. exists (S k), f. rewrite Nat.add_succ_r. auto.
    + intros [H|([|k] & f & Hk & Hl & Hx)].
      * left. destruct file as [file|]; [|exact H].
        destruct (negb _); [exact H|]. apply InsertUnique_In_iff. left. exact H.
      * cbn in Hk. injection Hk as ->. left.
        rewrite Hl. cbn [String.eqb Ascii.eqb Bool.eqb negb].
        apply InsertUnique_In_iff. right. rewrite Nat.add_0_r in Hx. exact Hx.
      * right. exists k, f. rewrite Nat.add_succ_r in Hx. auto.
Qed.

Lemma collectedIncludesFiles_written this options :
  layoutsWritten this (project options) (codeOutputDir this) <->
  collectedIncludesFiles this options <> None.
Proof.
  unfold collectedIncludesFiles, ExportEventsCode, ExportExternalSourceFiles.
  pose proof (ExportEventsCode_from_written this 0 (layoutsCode (project options))
                (codeOutputDir this)
                (snd (ExportEffectIncludes (project options)
                        (AddLibsInclude true false true [])))) as H.
  destruct (ExportEventsCode_from _ _ _ _ _) as [exported includesFiles].
  cbn [fst] in H. unfold layoutsWritten.
  destruct exported; cbn [negb].
  - split; [discriminate|]. intros _. apply H. reflexivity.
  - split; [|congruence]. intros Hw. apply H in Hw. discriminate.
Qed.

(** Gives a name to each list of libraries written in the goal. *)
Ltac name_libraries :=
  repeat match goal with
         | |- context [fold_left InsertUnique (?path :: ?paths) _] =>
             let libraries := fresh "libraries" in
             set (libraries := path :: paths); clearbody libraries
         end.

(** *** The claims on the exporter *)

(** C7.  Inserting a path that is in the list leaves the list as it is, and
    inserting one that is not appends it at the end.  So inserting the same
    path again and again gives the list of the first insertion, with the
    path where the first insertion put it: from the empty list, the path
    alone; and a list without duplicates stays without duplicates and holds
    the path once. *)
Theorem InsertUnique_first_seen (container : list string) (str : string) :
  (In str container -> InsertUnique container str = container)
  /\ (~ In str container -> InsertUnique container str = container ++ [str])
  /\ (forall n, Nat.iter (S n) (fun c => InsertUnique c str) container =
                InsertUnique container str)
  /\ (forall n, Nat.iter (S n) (fun c => InsertUnique c str) [] = [str])
  /\ (forall n, ~ In str container ->
                Nat.iter (S n) (fun c => InsertUnique c str) container
                !! length container = Some str)
  /\ (List.NoDup container ->
      List.NoDup (InsertUnique container str)
      /\ count_occ string_dec (InsertUnique container str) str = 1)
  /\ (forall paths, List.NoDup (fold_left InsertUnique paths [])).
Proof.
  split; [apply InsertUnique_present|]. split; [apply InsertUnique_absent|].
  split; [apply InsertUnique_again|]. split; [intros n; apply InsertUnique_again|].
  split.
  { intros n Hout. rewrite InsertUnique_again, InsertUnique_absent by exact Hout.
    apply list_lookup_middle. reflexivity. }
  split.
  - intros Hnd. pose proof (InsertUnique_NoDup container str Hnd) as Hnd'.
    split; [exact Hnd'|].
    apply (proj1 (List.NoDup_count_occ' string_dec _) Hnd'), InsertUnique_In.
  - intros paths. apply InsertUnique_all_NoDup. constructor.
Qed.

(** C8.  RemoveIncludes leaves the list filtered: the paths with a marker
    of a renderer asked for (pixi-renderer or pixi-filter, cocos-renderer or
    cocos-shader) are gone, all the others are kept, in their order. *)
Theorem RemoveIncludes_removes_marked_paths
  (pixiRenderers cocosRenderers : bool) (includesFiles : list string) :
  RemoveIncludes pixiRenderers cocosRenderers includesFiles =
  List.filter
    (fun includeFile =>
       negb ((pixiRenderers
              && (contains includeFile "pixi-renderer"
                  || contains includeFile "pixi-filter"))
             || (cocosRenderers
                 && (contains includeFile "cocos-renderer"
                     || contains includeFile "cocos-shader"))))
    includesFiles
  /\ (forall includeFile,
        In includeFile (RemoveIncludes pixiRenderers cocosRenderers includesFiles) <->
        In includeFile includesFiles
        /\ excluded pixiRenderers cocosRenderers includeFile = false)
  /\ sublist (RemoveIncludes pixiRenderers cocosRenderers includesFiles) includesFiles.
Proof.
  rewrite RemoveIncludes_filter. split; [reflexivity|]. split.
  - intros includeFile. rewrite <- RemoveIncludes_filter. apply RemoveIncludes_In.
  - induction includesFiles as [|f l IH]; [constructor|].
    cbn [List.filter]. destruct (negb _); [apply sublist_skip|apply sublist_cons]; exact IH.
Qed.

(** C9.  When a preview export builds the runtime options, the include files
    have gone through RemoveIncludes for the Cocos renderers: the script
    files of the options are the paths that RemoveIncludes left, and none of
    them has cocos-renderer or cocos-shader in it. *)
Theorem preview_scriptFiles_after_RemoveIncludes
  (this : Exporter) (options : PreviewExportOptions) (doc : SerializerElement) :
  runtimeGameOptions (ExportProjectForPixiPreview this options) = Some doc ->
  (exists collected,
     collectedIncludesFiles this options = Some collected
     /\ map (fun file => GetAttributes file !! "path") (scriptFiles doc) =
        map (fun includeFile => Some (StringValue includeFile))
            (RemoveIncludes false true collected))
  /\ (forall file path,
        In file (scriptFiles doc) ->
        GetAttributes file !! "path" = Some (StringValue path) ->
        contains path "cocos-renderer" = false
        /\ contains path "cocos-shader" = false).
Proof.
  intros Hdoc.
  apply runtimeGameOptions_built in Hdoc as (includesFiles & Hincludes & ->).
  apply previewIncludesFiles_removed in Hincludes as (collected & Hcollected & ->).
  rewrite scriptFiles_previewRuntimeGameOptions. split.
  - exists collected. split; [exact Hcollected|].
    rewrite List.map_map. apply List.map_ext. intros f. reflexivity.
  - intros file path Hin Hpath.
    apply in_map_iff in Hin as (f & <- & Hf).
    cbn in Hpath. rewrite lookup_insert_ne in Hpath by discriminate.
    rewrite lookup_insert_eq in Hpath. injection Hpath as ->.
    apply RemoveIncludes_In in Hf as [_ Hf]. unfold excluded in Hf.
    cbn [andb orb] in Hf. apply orb_false_iff in Hf. exact Hf.
Qed.

(** C10.  The runtime options of a preview have one script file per include
    file, in order: its path is the include file and its hash is the entry
    of the include file hashes for that path, 0 when there is none.  The
    child injectExternalLayout is there, with the name as its value, exactly
    when the name of the external layout is not empty. *)
Theorem runtimeGameOptions_lists_every_include
  (this : Exporter) (options : PreviewExportOptions) (doc : SerializerElement) :
  runtimeGameOptions (ExportProjectForPixiPreview this options) = Some doc ->
  exists includesFiles,
    previewIncludesFiles this options = Some includesFiles
    /\ length (scriptFiles doc) = length includesFiles
    /\ (forall i includeFile,
          includesFiles !! i = Some includeFile ->
          exists file,
            scriptFiles doc !! i = Some file
            /\ GetAttributes file !! "path" = Some (StringValue includeFile)
            /\ (forall hash,
                  includeFileHashes options !! includeFile = Some hash ->
                  GetAttributes file !! "hash" = Some (IntValue hash))
            /\ (includeFileHashes options !! includeFile = None ->
                GetAttributes file !! "hash" = Some (IntValue 0)))
    /\ GetChildren doc "injectExternalLayout" =
       (if String.eqb (externalLayoutName options) EmptyString then []
        else [SetValue emptyElement (StringValue (externalLayoutName options))])
    /\ (HasChild doc "injectExternalLayout" = true <->
        externalLayoutName options <> EmptyString).
Proof.
  intros Hdoc.
  apply runtimeGameOptions_built in Hdoc as (includesFiles & Hincludes & ->).
  exists includesFiles. split; [exact Hincludes|].
  rewrite scriptFiles_previewRuntimeGameOptions. split; [apply length_map|].
  split; [|split].
  - intros i includeFile Hi. eexists. split.
    + rewrite list_lookup_fmap, Hi. reflexivity.
    + unfold scriptFile, SetIntAttribute, SetStringAttribute, SetAttribute.
      cbn [emptyElement GetAttributes]. split; [|split].
      * rewrite lookup_insert_ne by discriminate. apply lookup_insert_eq.
      * intros hash ->. apply lookup_insert_eq.
      * intros ->. apply lookup_insert_eq.
  - unfold previewRuntimeGameOptions, GetChildren.
    unfold ConsiderAsArrayOf, emptyElement. rewrite AddChild_loop.
    destruct (String.eqb (externalLayoutName options) EmptyString); reflexivity.
  - unfold previewRuntimeGameOptions, HasChild.
    unfold ConsiderAsArrayOf, emptyElement. rewrite AddChild_loop.
    destruct (String.eqb_spec (externalLayoutName options) EmptyString) as [E|E];
      cbn; split; intros H; try discriminate; try contradiction; auto.
Qed.

(** The include files of a preview are a set when the runtime options are
    built: no path is there twice, and so no script file of the runtime
    options has the path of another. *)
Theorem preview_includes_without_duplicates
  (this : Exporter) (options : PreviewExportOptions) (doc : SerializerElement) :
  runtimeGameOptions (ExportProjectForPixiPreview this options) = Some doc ->
  exists includesFiles,
    previewIncludesFiles this options = Some includesFiles
    /\ List.NoDup includesFiles
    /\ List.NoDup (map (fun file => GetAttributes file !! "path") (scriptFiles doc)).
Proof.
  intros Hdoc.
  apply runtimeGameOptions_built in Hdoc as (includesFiles & Hincludes & ->).
  exists includesFiles. split; [exact Hincludes|].
  assert (List.NoDup includesFiles) as Hnd.
  { apply previewIncludesFiles_removed in Hincludes as (collected & Hcollected & ->).
    rewrite RemoveIncludes_filter. apply List.NoDup_filter.
    revert Hcollected. unfold collectedIncludesFiles.
    destruct (ExportEventsCode _ _ _ _ _) as [exported afterEvents] eqn:Eevents.
    destruct exported; cbn [negb]; [|discriminate].
    unfold ExportExternalSourceFiles. cbn [negb]. intros [= <-].
    apply ExportExternalSourceFiles_from_NoDup.
    change afterEvents with (snd (true, afterEvents)). rewrite <- Eevents.
    apply ExportEventsCode_from_NoDup. unfold ExportEffectIncludes. cbn [snd].
    apply InsertUnique_all_NoDup, AddLibsInclude_NoDup. constructor. }
  split; [exact Hnd|].
  rewrite scriptFiles_previewRuntimeGameOptions, List.map_map.
  apply List.NoDup_map_inv with (f := fun x => match x with
                                           | Some (StringValue p) => p
                                           | _ => EmptyString
                                           end).
  rewrite List.map_map.
  erewrite List.map_ext; [rewrite List.map_id; exact Hnd|].
  intros f. cbn. rewrite lookup_insert_ne by discriminate.
  rewrite lookup_insert_eq. reflexivity.
Qed.

(** X5.  RemoveIncludes asked for no renderer leaves the list as it is;
    two calls are the call for the renderers of either, in whichever order,
    so a second call for the same renderers changes nothing; and the call on
    two lists one after the other is the two calls one after the other. *)
Theorem RemoveIncludes_composes
  (pixiRenderers cocosRenderers pixiRenderers' cocosRenderers' : bool)
  (includesFiles moreFiles : list string) :
  RemoveIncludes false false includesFiles = includesFiles
  /\ RemoveIncludes pixiRenderers' cocosRenderers'
       (RemoveIncludes pixiRenderers cocosRenderers includesFiles) =
     RemoveIncludes (pixiRenderers || pixiRenderers') (cocosRenderers || cocosRenderers')
       includesFiles
  /\ RemoveIncludes pixiRenderers cocosRenderers
       (RemoveIncludes pixiRenderers cocosRenderers includesFiles) =
     RemoveIncludes pixiRenderers cocosRenderers includesFiles
  /\ RemoveIncludes pixiRenderers cocosRenderers (includesFiles ++ moreFiles) =
     RemoveIncludes pixiRenderers cocosRenderers includesFiles ++
     RemoveIncludes pixiRenderers cocosRenderers moreFiles.
Proof.
  assert (forall p c p' c' l,
            RemoveIncludes p' c' (RemoveIncludes p c l) =
            RemoveIncludes (p || p') (c || c') l) as Hcompose.
  { intros p c p' c' l. rewrite !RemoveIncludes_filter, filter_filter.
    apply List.filter_ext. intros f. unfold excluded.
    destruct p, c, p', c',
      (contains f "pixi-renderer"), (contains f "pixi-filter"),
      (contains f "cocos-renderer"), (contains f "cocos-shader"); reflexivity. }
  split; [reflexivity|]. split; [apply Hcompose|]. split.
  - rewrite Hcompose, !orb_diag. reflexivity.
  - rewrite !RemoveIncludes_filter. apply List.filter_app.
Qed.

(** X6.  AddLibsInclude leaves the include files it is given where they
    are and puts after them the libraries that were not among them: the
    result holds the include files given and the libraries that the same call
    gives on the empty list, and nothing else.  A second call with the same
    flags changes nothing, and a list without duplicates stays so. *)
Theorem AddLibsInclude_appends_the_missing_libraries
  (pixiRenderers cocosRenderers websocketDebuggerClient : bool)
  (includesFiles : list string) :
  let added :=
    AddLibsInclude pixiRenderers cocosRenderers websocketDebuggerClient includesFiles in
  appended includesFiles added
  /\ (forall includeFile,
        In includeFile added <->
        In includeFile includesFiles
        \/ In includeFile
             (AddLibsInclude pixiRenderers cocosRenderers websocketDebuggerClient []))
  /\ AddLibsInclude pixiRenderers cocosRenderers websocketDebuggerClient added = added
  /\ (List.NoDup includesFiles -> List.NoDup added).
Proof.
  intros added. subst added.
  assert (forall l includeFile,
            In includeFile
              (AddLibsInclude pixiRenderers cocosRenderers websocketDebuggerClient l) <->
            In includeFile l
            \/ In includeFile
                 (AddLibsInclude pixiRenderers cocosRenderers websocketDebuggerClient []))
    as Hin.
  { intros l includeFile. unfold AddLibsInclude.
    destruct pixiRenderers, cocosRenderers, websocketDebuggerClient;
      name_libraries; rewrite !InsertUnique_all_In; cbn [In]; tauto. }
  split; [apply AddLibsInclude_appended|]. split; [apply Hin|]. split.
  - set (added := AddLibsInclude _ _ _ includesFiles).
    assert (forall x,
              In x (AddLibsInclude pixiRenderers cocosRenderers
                      websocketDebuggerClient []) -> In x added) as Hall.
    { intros x Hx. apply Hin. right. exact Hx. }
    clearbody added. revert Hall. unfold AddLibsInclude.
    destruct pixiRenderers, cocosRenderers, websocketDebuggerClient;
      name_libraries; intros Hall;
      rewrite !InsertUnique_all_present; try reflexivity;
      intros x Hx; rewrite ?InsertUnique_all_In;
      assert (In x added) by (apply Hall; rewrite !InsertUnique_all_In; tauto);
      tauto.
  - apply AddLibsInclude_NoDup.
Qed.

(** X7.  ExportEventsCode returns true exactly when the code of every
    layout has been written, the code of the layout [i] to code[i].js of the
    output directory.  At the first layout whose code cannot be written it
    returns false, and the include files are those that the layouts before
    it have left: the layouts after it are not looked at. *)
Theorem ExportEventsCode_stops_at_the_failed_write
  (this : Exporter) (project : Project) (outputDir : string)
  (includesFiles : list string) (exportForPreview : bool) :
  (fst (ExportEventsCode this project outputDir includesFiles exportForPreview) = true
   <-> layoutsWritten this project outputDir)
  /\ (forall k eventsOutput eventsIncludes,
        (forall j output includes,
           j < k -> layoutsCode project !! j = Some (output, includes) ->
           WriteToFile this (codeFile outputDir j) output = true) ->
        layoutsCode project !! k = Some (eventsOutput, eventsIncludes) ->
        WriteToFile this (codeFile outputDir k) eventsOutput = false ->
        ExportEventsCode this project outputDir includesFiles exportForPreview =
        (false,
         snd (ExportEventsCode_from this 0 (take k (layoutsCode project))
                outputDir includesFiles))).
Proof.
  unfold ExportEventsCode. split.
  - apply ExportEventsCode_from_written.
  - intros k eventsOutput eventsIncludes Hbefore Hk Hw.
    apply (ExportEventsCode_from_stops this 0 _ _ _ k eventsOutput eventsIncludes);
      assumption.
Qed.

(** X8.  ExportEventsCode leaves the include files it is given where
    they are and puts the new ones after them.  When it returns true, the
    include files are those given, the include files that the layouts ask
    for, and the code file of every layout. *)
Theorem ExportEventsCode_adds_includes_and_code_files
  (this : Exporter) (project : Project) (outputDir : string)
  (includesFiles : list string) (exportForPreview : bool) :
  let exported :=
    ExportEventsCode this project outputDir includesFiles exportForPreview in
  appended includesFiles (snd exported)
  /\ (fst exported = true ->
      forall includeFile,
        In includeFile (snd exported) <->
        In includeFile includesFiles
        \/ exists i eventsOutput eventsIncludes,
             layoutsCode project !! i = Some (eventsOutput, eventsIncludes)
             /\ (In includeFile eventsIncludes
                 \/ includeFile = outputDir +:+ "/" +:+ "code" +:+ From i +:+ ".js")).
Proof.
  intros exported. subst exported. unfold ExportEventsCode. split.
  - apply ExportEventsCode_from_appended.
  - intros Hok includeFile. apply (ExportEventsCode_from_In this 0), Hok.
Qed.

(** X9.  ExportExternalSourceFiles always returns true.  It leaves the
    include files it is given where they are, and puts after them one file
    ext-code[i].js for every source file in Javascript, [i] being the place
    of the source file among all the source files, missing ones and those of
    other languages counted; the name follows the output directory with no
    separator. *)
Theorem ExportExternalSourceFiles_adds_the_javascript_files
  (project : Project) (outputDir : string) (includesFiles : list string) :
  let exported := ExportExternalSourceFiles project outputDir includesFiles in
  fst exported = true
  /\ appended includesFiles (snd exported)
  /\ (forall includeFile,
        In includeFile (snd exported) <->
        In includeFile includesFiles
        \/ exists i file,
             GetAllSourceFiles project !! i = Some (Some file)
             /\ GetLanguage file = "Javascript"
             /\ includeFile = outputDir +:+ "ext-code" +:+ From i +:+ ".js").
Proof.
  intros exported. subst exported. unfold ExportExternalSourceFiles. cbn [fst snd].
  split; [reflexivity|]. split.
  - apply ExportExternalSourceFiles_from_appended.
  - intros includeFile. apply (ExportExternalSourceFiles_from_In 0).
Qed.

(** X10.  A preview builds its runtime options exactly when the code of
    every layout has been written, and it succeeds exactly when, moreover,
    the index file is exported.  The include files given to the copy and to
    the index file are then those of the runtime options followed by data.js
    of the code output directory. *)
Theorem preview_fails_when_a_layout_is_not_written
  (this : Exporter) (options : PreviewExportOptions) :
  let export := ExportProjectForPixiPreview this options in
  (runtimeGameOptions export <> None <->
   layoutsWritten this (project options) (codeOutputDir this))
  /\ (succeeded export = true <->
      layoutsWritten this (project options) (codeOutputDir this)
      /\ ExportPixiIndexFile this (finalIncludesFiles export) = true)
  /\ (layoutsWritten this (project options) (codeOutputDir this) ->
      exists includesFiles,
        previewIncludesFiles this options = Some includesFiles
        /\ finalIncludesFiles export =
           ExportIncludesAndLibs this
             (includesFiles ++ [codeOutputDir this +:+ "/data.js"])
             (exportPath options)).
Proof.
  intros export. subst export.
  pose proof (collectedIncludesFiles_written this options) as Hw.
  unfold ExportProjectForPixiPreview, previewIncludesFiles.
  destruct (collectedIncludesFiles this options) as [collected|];
    cbn [runtimeGameOptions succeeded finalIncludesFiles].
  - assert (layoutsWritten this (project options) (codeOutputDir this)) as Hall
        by (apply Hw; discriminate).
    split; [split; [intros _; exact Hall|discriminate]|].
    split; [tauto|]. intros _. eexists. split; reflexivity.
  - assert (~ layoutsWritten this (project options) (codeOutputDir this)) as Hnot
        by (intros H; apply Hw in H; congruence).
    split; [split; [congruence|contradiction]|].
    split; [split; [discriminate|tauto]|contradiction].
Qed.

(** X11.  The include files of a preview start with the libraries of the
    engine, in the order of AddLibsInclude for the Pixi renderers and the
    debugger client: the effects, the code of the events and the source
    files come after them, in the include files and in the script files of
    the runtime options. *)
Theorem preview_lists_the_engine_libraries_first
  (this : Exporter) (options : PreviewExportOptions) (includesFiles : list string) :
  previewIncludesFiles this options = Some includesFiles ->
  exists others,
    includesFiles = AddLibsInclude true false true [] ++ others
    /\ (forall doc,
          runtimeGameOptions (ExportProjectForPixiPreview this options) = Some doc ->
          map (fun file => GetAttributes file !! "path") (scriptFiles doc) =
          map (fun includeFile => Some (StringValue includeFile))
              (AddLibsInclude true false true [] ++ others)).
Proof.
  intros Hincludes.
  assert (exists others, includesFiles = AddLibsInclude true false true [] ++ others)
    as [others Hothers].
  { apply previewIncludesFiles_removed in Hincludes as (collected & Hcollected & ->).
    revert Hcollected. unfold collectedIncludesFiles, ExportEventsCode.
    pose proof (ExportEventsCode_from_appended this 0
                  (layoutsCode (project options)) (codeOutputDir this)
                  (snd (ExportEffectIncludes (project options)
                          (AddLibsInclude true false true [])))) as Hevents.
    destruct (ExportEventsCode_from _ _ _ _ _) as [exported afterEvents].
    cbn [snd] in Hevents. destruct exported; cbn [negb]; [|discriminate].
    unfold ExportExternalSourceFiles. cbn [negb]. intros [= <-].
    assert (appended (AddLibsInclude true false true [])
              (ExportExternalSourceFiles_from 0 (GetAllSourceFiles (project options))
                 (codeOutputDir this) afterEvents)) as (added & -> & _).
    { eapply appended_trans; [|apply ExportExternalSourceFiles_from_appended].
      eapply appended_trans; [|exact Hevents].
      unfold ExportEffectIncludes. cbn [snd]. apply InsertUnique_all_appended. }
    rewrite RemoveIncludes_filter, List.filter_app.
    eexists. f_equal. }
  exists others. split; [exact Hothers|].
  intros doc Hdoc. apply runtimeGameOptions_built in Hdoc as (l & Hl & ->).
  rewrite Hincludes in Hl. injection Hl as <-. rewrite <- Hothers.
  rewrite scriptFiles_previewRuntimeGameOptions, List.map_map.
  apply List.map_ext. intros f. cbn. rewrite lookup_insert_ne by discriminate.
  apply lookup_insert_eq.
Qed.

(** *** The exporter at work *)

(** C7 on an example: gd.js is inserted into a list that has it. *)
Lemma InsertUnique_example :
  InsertUnique [ "libs/jshashtable.js"; "gd.js" ] "gd.js" =
  [ "libs/jshashtable.js"; "gd.js" ].
Proof.
  apply (proj1 (InsertUnique_first_seen [ "libs/jshashtable.js"; "gd.js" ] "gd.js")).
  right. left. reflexivity.
Defined.

(** C9 on an example: a layout asks for the Cocos renderer of the text
    object; the runtime options are built and do not list it. *)
Lemma preview_example :
  (exists collected,
     collectedIncludesFiles previewExporter (previewOptions EmptyString)
     = Some collected
     /\ map (fun file => GetAttributes file !! "path")
            (scriptFiles (previewDocument EmptyString)) =
        map (fun includeFile => Some (StringValue includeFile))
            (RemoveIncludes false true collected))
  /\ (forall file path,
        In file (scriptFiles (previewDocument EmptyString)) ->
        GetAttributes file !! "path" = Some (StringValue path) ->
        contains path "cocos-renderer" = false
        /\ contains path "cocos-shader" = false).
Proof.
  apply (preview_scriptFiles_after_RemoveIncludes
           previewExporter (previewOptions EmptyString)).
  vm_compute. reflexivity.
Defined.

(** C10 on an example: the same preview with an external layout. *)
Lemma runtimeGameOptions_example :
  exists includesFiles,
    previewIncludesFiles previewExporter (previewOptions "Hud") = Some includesFiles
    /\ length (scriptFiles (previewDocument "Hud")) = length includesFiles
    /\ (forall i includeFile,
          includesFiles !! i = Some includeFile ->
          exists file,
            scriptFiles (previewDocument "Hud") !! i = Some file
            /\ GetAttributes file !! "path" = Some (StringValue includeFile)
            /\ (forall hash,
                  includeFileHashes (previewOptions "Hud") !! includeFile = Some hash ->
                  GetAttributes file !! "hash" = Some (IntValue hash))
            /\ (includeFileHashes (previewOptions "Hud") !! includeFile = None ->
                GetAttributes file !! "hash" = Some (IntValue 0)))
    /\ GetChildren (previewDocument "Hud") "injectExternalLayout" =
       (if String.eqb (externalLayoutName (previewOptions "Hud")) EmptyString then []
        else [SetValue emptyElement
                (StringValue (externalLayoutName (previewOptions "Hud")))])
    /\ (HasChild (previewDocument "Hud") "injectExternalLayout" = true <->
        externalLayoutName (previewOptions "Hud") <> EmptyString).
Proof.
  apply (runtimeGameOptions_lists_every_include
           previewExporter (previewOptions "Hud")).
  vm_compute. reflexivity.
Defined.

(** The example preview lists no path twice. *)
Lemma preview_without_duplicates_example :
  exists includesFiles,
    previewIncludesFiles previewExporter (previewOptions EmptyString)
    = Some includesFiles
    /\ List.NoDup includesFiles
    /\ List.NoDup (map (fun file => GetAttributes file !! "path")
                     (scriptFiles (previewDocument EmptyString))).
Proof.
  apply (preview_includes_without_duplicates
           previewExporter (previewOptions EmptyString)).
  vm_compute. reflexivity.
Defined.

(** The example preview lists the libraries of the engine first. *)
Lemma preview_libraries_first_example :
  exists others,
    previewScripts = AddLibsInclude true false true [] ++ others
    /\ (forall doc,
          runtimeGameOptions
            (ExportProjectForPixiPreview previewExporter (previewOptions EmptyString))
          = Some doc ->
          map (fun file => GetAttributes file !! "path") (scriptFiles doc) =
          map (fun includeFile => Some (StringValue includeFile))
              (AddLibsInclude true false true [] ++ others)).
Proof.
  apply (preview_lists_the_engine_libraries_first
           previewExporter (previewOptions EmptyString) previewScripts).
  vm_compute. reflexivity.
Defined.

(** The code of the second layout of three cannot be written: the include
    files are those of the first layout, and the third is not looked at. *)
Lemma failed_write_example :
  ExportEventsCode failingExporter threeScenes "/tmp/preview-code" [ "gd.js" ] true =
  (false, [ "gd.js"; "Extensions/menu.js"; "/tmp/preview-code/code0.js" ]).
Proof.
  etransitivity.
  - apply (proj2 (ExportEventsCode_stops_at_the_failed_write
                    failingExporter threeScenes "/tmp/preview-code" [ "gd.js" ] true)
             1 "gdjs.GameCode = {};" [ "Extensions/game.js" ]).
    + intros [|j] output includes Hj Hl; [|lia].
      injection Hl as <- <-. reflexivity.
    + reflexivity.
    + reflexivity.
  - vm_compute. reflexivity.
Defined.

End ExporterHelper.

(** ** ExporterHelper.cpp: the files of an export *)

Module ExporterHelperFiles.
Import GdString.

(** The tabulation and the line feed, written by their codes. *)
Definition tab : string := String (ascii_of_nat 9) EmptyString.
Definition newline : string := String (ascii_of_nat 10) EmptyString.

(** gd::AbstractFileSystem, declared in GDCore, as the exporter calls it.  A
    file system is a value of [FS]; a call that may change it gives the file
    system it leaves, a question on it (is the file there, what does it hold)
    leaves it as it is, and the calls on paths alone do not depend on it.
    MakeRelative and MakeAbsolute, which change the path they are given,
    return it. *)
Class AbstractFileSystem (FS : Type) := {
  MkDir : string -> FS -> FS;
  DirExists : string -> FS -> bool;
  FileExists : string -> FS -> bool;
  ReadFile : string -> FS -> string;
  WriteToFile : string -> string -> FS -> bool * FS;
  CopyFile : string -> string -> FS -> bool * FS;
  IsAbsolute : string -> bool;
  MakeRelative : string -> string -> string;
  MakeAbsolute : string -> string -> string;
  DirNameFrom : string -> string;
  FileNameFrom : string -> string
}.

(** gd::Project, as the export of the files of a platform reads it;
    [GetIconFile platform name] is the file of the resource that the platform
    specific assets give for [name] on [platform], empty when there is
    none. *)
Record Project := {
  GetName : string;
  GetAuthor : string;
  GetVersion : string;
  GetPackageName : string;
  GetOrientation : string;
  GetAdMobAppId : string;
  GetGameResolutionWidth : Z;
  GetGameResolutionHeight : Z;
  GetProjectFile : string;
  GetIconFile : string -> string -> string
}.

(** gd::String::From on an int: its decimal digits, with a sign when it is
    negative. *)
Definition FromInt (i : Z) : string := NilZero.string_of_int (Z.to_int i).

(** The ExporterHelper object: the file system it works on, its two
    directories and the last error it has recorded. *)
Record ExporterHelper (FS : Type) := {
  fs : FS;
  gdjsRoot : string;
  codeOutputDir : string;
  lastError : string
}.

Arguments Build_ExporterHelper {FS}.
Arguments fs {FS}.
Arguments gdjsRoot {FS}.
Arguments codeOutputDir {FS}.
Arguments lastError {FS}.

(** A file system in memory, to run the exporter on: the text of every file
    by its path, the directories made, and the paths that cannot be written.
    A path is absolute when it starts with a slash. *)
Record MemoryFileSystem := {
  files : gmap string string;
  directories : gset string;
  readOnly : gset string
}.

Definition writeFile (path content : string) (fileSystem : MemoryFileSystem)
  : bool * MemoryFileSystem :=
  if decide (path ∈ readOnly fileSystem) then (false, fileSystem)
  else (true, {| files := <[path := content]> (files fileSystem);
                 directories := directories fileSystem;
                 readOnly := readOnly fileSystem |}).

Fixpoint fileNameFrom (path : string) : string :=
  match path with
  | EmptyString => EmptyString
  | String c rest =>
      if occurs "/" rest then fileNameFrom rest
      else if Ascii.eqb c "/" then rest else path
  end.

Fixpoint dirNameFrom (path : string) : string :=
  match path with
  | EmptyString => EmptyString
  | String c rest => if occurs "/" rest then String c (dirNameFrom rest) else EmptyString
  end.

Definition MemoryFileSystem_AbstractFileSystem
  : AbstractFileSystem MemoryFileSystem := {|
  MkDir path fileSystem :=
    {| files := files fileSystem;
       directories := {[ path ]} ∪ directories fileSystem;
       readOnly := readOnly fileSystem |};
  DirExists path fileSystem := bool_decide (path ∈ directories fileSystem);
  FileExists path fileSystem := bool_decide (is_Some (files fileSystem !! path));
  ReadFile path fileSystem := default EmptyString (files fileSystem !! path);
  WriteToFile := writeFile;
  CopyFile source destination fileSystem :=
    match files fileSystem !! source with
    | Some content => writeFile destination content fileSystem
    | None => (false, fileSystem)
    end;
  IsAbsolute path := String.prefix "/" path;
  MakeRelative path baseDirectory :=
    if String.prefix (baseDirectory +:+ "/") path
    then String.substring (S (String.length baseDirectory))
           (String.length path - S (String.length baseDirectory)) path
    else if String.prefix baseDirectory path
    then String.substring (String.length baseDirectory)
           (String.length path - String.length baseDirectory) path
    else path;
  MakeAbsolute path baseDirectory :=
    if String.prefix "/" path then path else baseDirectory +:+ "/" +:+ path;
  DirNameFrom := dirNameFrom;
  FileNameFrom := fileNameFrom
|}.

(** An exporter on a file system that holds the code of a scene and one
    library of the runtime. *)
Definition gameExporter : ExporterHelper MemoryFileSystem :=
  {| fs := {| files := {[ "/gdjs/Runtime/gd.js" := "var gdjs = {};";
                          "/tmp/code/code0.js" := "gdjs.SceneCode = {};";
                          "/export/gd.js" := "var gdjs = {};";
                          "/export/src/gd.js" := "var gdjs = {};";
                          "/export/src/code0.js" := "gdjs.SceneCode = {};" ]};
              directories := ∅;
              readOnly := ∅ |};
     gdjsRoot := "/gdjs";
     codeOutputDir := "/tmp/code";
     lastError := EmptyString |}.

(** The same exporter when index.html cannot be written. *)
Definition lockedExporter : ExporterHelper MemoryFileSystem :=
  {| fs := {| files := {[ "/gdjs/Runtime/Cocos2d/main.js" := "cc.game.run();";
                          "/gdjs/Runtime/Cocos2d/cocos2d-js-v3.10.js" := "var cc = {};" ]};
              directories := ∅;
              readOnly := {[ "/export/index.html" ]} |};
     gdjsRoot := "/gdjs";
     codeOutputDir := "/tmp/code";
     lastError := EmptyString |}.

(** A game without icons. *)
Definition game : Project :=
  {| GetName := "My Game";
     GetAuthor := "me";
     GetVersion := "1.0.0";
     GetPackageName := "com.example.mygame";
     GetOrientation := "landscape";
     GetAdMobAppId := EmptyString;
     GetGameResolutionWidth := 800;
     GetGameResolutionHeight := 600;
     GetProjectFile := "/projects/game.json";
     GetIconFile := fun _ _ => EmptyString |}.

Section Exporter.

Context {FS : Type} `{AbstractFileSystem FS}.

(** Of GDCore: gd::Serializer::ToJSON on the element of a text,
    gd::Serializer::ToEscapedXMLString, the mangled name of a scene,
    gd::String::LowerCase and AbstractFileSystem::NormalizeSeparator. *)
Variable ToJSON : string -> string.
Variable ToEscapedXMLString : string -> string.
Variable GetMangledSceneName : string -> string.
Variable LowerCase : string -> string.
Variable NormalizeSeparator : string -> string.

(** A member function: from the object as it is to what the function returns
    and the object as the function leaves it. *)
Definition Method (A : Type) : Type :=
  ExporterHelper FS -> A * ExporterHelper FS.

#[local] Instance Method_mret : MRet Method := fun A a this => (a, this).

#[local] Instance Method_bind : MBind Method :=
  fun A B k m this => let '(a, this) := m this in k a this.

(** A call on the file system of the object. *)
Definition onFileSystem {A} (call : FS -> A * FS) : Method A :=
  fun this =>
    let '(a, fileSystem) := call (fs this) in
    (a, {| fs := fileSystem; gdjsRoot := gdjsRoot this;
           codeOutputDir := codeOutputDir this; lastError := lastError this |}).

Definition fs_MkDir (path : string) : Method unit :=
  onFileSystem (fun fileSystem => (tt, MkDir path fileSystem)).
Definition fs_DirExists (path : string) : Method bool :=
  fun this => (DirExists path (fs this), this).
Definition fs_FileExists (path : string) : Method bool :=
  fun this => (FileExists path (fs this), this).
Definition fs_ReadFile (path : string) : Method string :=
  fun this => (ReadFile path (fs this), this).
Definition fs_WriteToFile (path content : string) : Method bool :=
  onFileSystem (WriteToFile path content).
Definition fs_CopyFile (source destination : string) : Method bool :=
  onFileSystem (CopyFile source destination).

Definition get_gdjsRoot : Method string := fun this => (gdjsRoot this, this).

Definition set_lastError (message : string) : Method unit :=
  fun this =>
    (tt, {| fs := fs this; gdjsRoot := gdjsRoot this;
            codeOutputDir := codeOutputDir this; lastError := message |}).

(** *** The index file *)

(** The loop of CompleteIndexFile over the include files, from the text
    reached so far. *)
Fixpoint codeFilesIncludes_from (exportDir : string) (includesFiles : list string)
  (codeFilesIncludes : string) : Method string :=
  match includesFiles with
  | [] => mret codeFilesIncludes
  | it :: rest =>
      if IsAbsolute it
      then
        let scriptSrc := it in
        codeFilesIncludes_from exportDir rest
          (codeFilesIncludes +:+
           (tab +:+ "<script src=" +:+ dquote +:+ scriptSrc +:+
            dquote +:+ " crossorigin=" +:+ dquote +:+ "anonymous" +:+ dquote +:+
            "></script>" +:+ newline))
      else
        found ← fs_FileExists (exportDir +:+ "/" +:+ it);
        if negb found
        then codeFilesIncludes_from exportDir rest codeFilesIncludes
        else
          let scriptSrc := exportDir +:+ "/" +:+ it in
          let scriptSrc := MakeRelative scriptSrc exportDir in
          codeFilesIncludes_from exportDir rest
            (codeFilesIncludes +:+
             (tab +:+ "<script src=" +:+ dquote +:+ scriptSrc +:+
              dquote +:+ " crossorigin=" +:+ dquote +:+ "anonymous" +:+ dquote +:+
              "></script>" +:+ newline))
  end.

(** The text is given by reference and changed: it is returned with the
    result. *)
Definition CompleteIndexFile (str exportDir : string) (includesFiles : list string)
  (additionalSpec : string) : Method (bool * string) :=
  let additionalSpec :=
    if String.eqb additionalSpec EmptyString then "{}" else additionalSpec in
  codeFilesIncludes ← codeFilesIncludes_from exportDir includesFiles EmptyString;
  let str :=
    str.FindAndReplace("/* GDJS_CUSTOM_STYLE */", EmptyString)
       .FindAndReplace("<!-- GDJS_CUSTOM_HTML -->", EmptyString)
       .FindAndReplace("<!-- GDJS_CODE_FILES -->", codeFilesIncludes)
       .FindAndReplace("{}/*GDJS_ADDITIONAL_SPEC*/", additionalSpec) in
  mret (true, str).

Definition ExportPixiIndexFile (project : Project) (source exportDir : string)
  (includesFiles : list string) (additionalSpec : string) : Method bool :=
  str ← fs_ReadFile source;
  '(completed, str) ← CompleteIndexFile str exportDir includesFiles additionalSpec;
  if negb completed then mret false
  else
    written ← fs_WriteToFile (exportDir +:+ "/index.html") str;
    if negb written
    then set_lastError "Unable to write index file.";; mret false
    else mret true.

(** *** The include files and the libraries *)

(** The body of the loop of ExportIncludesAndLibs: the include file is
    copied when it is found, and the path it has in the export is what the
    loop writes in its place. *)
Definition exportInclude (include exportDir : string) : Method string :=
  if negb (IsAbsolute include)
  then
    gdjsRoot ← get_gdjsRoot;
    let source := gdjsRoot +:+ "/Runtime/" +:+ include in
    found ← fs_FileExists source;
    if (found : bool)
    then
      let path := DirNameFrom (exportDir +:+ "/" +:+ include) in
      pathExists ← fs_DirExists path;
      (if negb pathExists then fs_MkDir path else mret tt);;
      fs_CopyFile source (exportDir +:+ "/" +:+ include);;
      let relativeInclude := source in
      let relativeInclude :=
        MakeRelative relativeInclude (gdjsRoot +:+ "/Runtime/") in
      mret relativeInclude
    else mret include
  else
    found ← fs_FileExists include;
    if (found : bool)
    then
      fs_CopyFile include (exportDir +:+ "/" +:+ FileNameFrom include);;
      mret (FileNameFrom include)
    else mret include.

Fixpoint ExportIncludesAndLibs_from (includesFiles : list string) (exportDir : string)
  : Method (list string) :=
  match includesFiles with
  | [] => mret []
  | include :: rest =>
      include ← exportInclude include exportDir;
      rest ← ExportIncludesAndLibs_from rest exportDir;
      mret (include :: rest)
  end.

Definition ExportIncludesAndLibs (includesFiles : list string) (exportDir : string)
  (minify : bool) : Method (bool * list string) :=
  includesFiles ← ExportIncludesAndLibs_from includesFiles exportDir;
  mret (true, includesFiles).

(** *** The files of Cocos2d-JS *)

(** The loop of ExportCocos2dFiles over the include files, from the text
    reached so far and the flag that no file has been written yet. *)
Fixpoint includeFilesStr_from (exportDir : string) (includesFiles : list string)
  (includeFilesStr : string) (first : bool) : Method string :=
  match includesFiles with
  | [] => mret includeFilesStr
  | file :: rest =>
      found ← fs_FileExists (exportDir +:+ "/src/" +:+ file);
      if negb found
      then includeFilesStr_from exportDir rest includeFilesStr first
      else
        let includeFilesStr :=
          includeFilesStr +:+
          ((if first then EmptyString else ", ") +:+
           dquote +:+ "src/" +:+ file +:+ dquote +:+ newline) in
        let first := false in
        includeFilesStr_from exportDir rest includeFilesStr first
  end.

Definition ExportCocos2dFiles (project : Project) (exportDir : string)
  (debugMode : bool) (includesFiles : list string) : Method bool :=
  gdjsRoot ← get_gdjsRoot;
  copied ← fs_CopyFile (gdjsRoot +:+ "/Runtime/Cocos2d/main.js")
                        (exportDir +:+ "/main.js");
  if negb copied
  then set_lastError "Unable to write Cocos2d main.js file.";; mret false
  else
    copied ← fs_CopyFile (gdjsRoot +:+ "/Runtime/Cocos2d/cocos2d-js-v3.10.js")
                          (exportDir +:+ "/cocos2d-js-v3.10.js");
    if negb copied
    then set_lastError "Unable to write Cocos2d cocos2d-js-v3.10.js file.";; mret false
    else
      str ← fs_ReadFile (gdjsRoot +:+ "/Runtime/Cocos2d/index.html");
      let noIncludesInThisFile := [] in
      '(completed, str) ←
        CompleteIndexFile str exportDir noIncludesInThisFile EmptyString;
      if negb completed
      then set_lastError "Unable to complete Cocos2d-JS index.html file.";; mret false
      else
        written ← fs_WriteToFile (exportDir +:+ "/index.html") str;
        if negb written
        then set_lastError "Unable to write Cocos2d-JS index.html file.";; mret false
        else
          includeFilesStr ←
            includeFilesStr_from exportDir includesFiles EmptyString true;
          template ← fs_ReadFile (gdjsRoot +:+ "/Runtime/Cocos2d/project.json");
          let str :=
            template
              .FindAndReplace("// GDJS_INCLUDE_FILES", includeFilesStr)
              .FindAndReplace("/*GDJS_SHOW_FPS*/",
                              if debugMode then "true" else "false") in
          written ← fs_WriteToFile (exportDir +:+ "/project.json") str;
          if negb written
          then set_lastError "Unable to write Cocos2d-JS project.json file.";;
               mret false
          else mret true.

(** *** The files of Facebook Instant Games *)

Definition ExportFacebookInstantGamesFiles (project : Project) (exportDir : string)
  : Method bool :=
  gdjsRoot ← get_gdjsRoot;
  template ←
    fs_ReadFile (gdjsRoot +:+ "/Runtime/FacebookInstantGames/fbapp-config.json");
  let str :=
    template
      .FindAndReplace(dquote +:+ "GDJS_ORIENTATION" +:+ dquote,
                      if String.eqb (GetOrientation project) "portrait"
                      then dquote +:+ "PORTRAIT" +:+ dquote
                      else dquote +:+ "LANDSCAPE" +:+ dquote) in
  written ← fs_WriteToFile (exportDir +:+ "/fbapp-config.json") str;
  if negb written
  then set_lastError "Unable to write Facebook Instant Games fbapp-config.json file.";;
       mret false
  else mret true.

(** *** The files of Electron *)

Definition ExportElectronFiles (project : Project) (exportDir : string)
  : Method bool :=
  let jsonName := ToJSON (GetName project) in
  let jsonAuthor := ToJSON (GetAuthor project) in
  let jsonVersion := ToJSON (GetVersion project) in
  let jsonMangledName :=
    ToJSON ((LowerCase (GetMangledSceneName (GetName project)))
              .FindAndReplace(" ", "-")) in
  gdjsRoot ← get_gdjsRoot;
  template ← fs_ReadFile (gdjsRoot +:+ "/Runtime/Electron/package.json");
  let str :=
    template
      .FindAndReplace(dquote +:+ "GDJS_GAME_NAME" +:+ dquote, jsonName)
      .FindAndReplace(dquote +:+ "GDJS_GAME_AUTHOR" +:+ dquote, jsonAuthor)
      .FindAndReplace(dquote +:+ "GDJS_GAME_VERSION" +:+ dquote, jsonVersion)
      .FindAndReplace(dquote +:+ "GDJS_GAME_MANGLED_NAME" +:+ dquote,
                      jsonMangledName) in
  written ← fs_WriteToFile (exportDir +:+ "/package.json") str;
  if negb written
  then set_lastError "Unable to write Electron package.json file.";; mret false
  else
    template ← fs_ReadFile (gdjsRoot +:+ "/Runtime/Electron/main.js");
    let str :=
      template
        .FindAndReplace("800 /*GDJS_WINDOW_WIDTH*/",
                        FromInt (GetGameResolutionWidth project))
        .FindAndReplace("600 /*GDJS_WINDOW_HEIGHT*/",
                        FromInt (GetGameResolutionHeight project))
        .FindAndReplace(dquote +:+ "GDJS_GAME_NAME" +:+ dquote, jsonName) in
    written ← fs_WriteToFile (exportDir +:+ "/main.js") str;
    if negb written
    then set_lastError "Unable to write Electron main.js file.";; mret false
    else
      let iconFilename := GetIconFile project "desktop" "icon-512" in
      let projectDirectory :=
        NormalizeSeparator (DirNameFrom (GetProjectFile project)) in
      let iconFilename := MakeAbsolute iconFilename projectDirectory in
      fs_MkDir (exportDir +:+ "/buildResources");;
      found ← fs_FileExists iconFilename;
      (if (found : bool)
       then fs_CopyFile iconFilename (exportDir +:+ "/buildResources/icon.png");;
            mret tt
       else mret tt);;
      mret true.

(** *** The files of Cordova *)

Definition getIconFilename (project : Project) (platform name : string) : string :=
  let file := GetIconFile project platform name in
  if String.eqb file EmptyString then EmptyString else "www/" +:+ file.

Definition makeIconsAndroid (project : Project) : string :=
  let sizes :=
    [ ("36", "ldpi"); ("48", "mdpi"); ("72", "hdpi"); ("96", "xhdpi");
      ("144", "xxhdpi"); ("192", "xxxhdpi") ] in
  fold_left
    (fun output (size : string * string) =>
       let filename := getIconFilename project "android" ("icon-" +:+ fst size) in
       output +:+
       (if negb (String.eqb filename EmptyString)
        then "<icon src=" +:+ dquote +:+ filename +:+ dquote +:+
             " density=" +:+ dquote +:+ snd size +:+ dquote +:+ " />" +:+ newline
        else EmptyString))
    sizes EmptyString.

Definition makeIconsIos (project : Project) : string :=
  let sizes :=
    [ "180"; "60"; "120"; "76"; "152"; "40"; "80"; "57"; "114"; "72"; "144";
      "167"; "29"; "58"; "50"; "100" ] in
  fold_left
    (fun output size =>
       let filename := getIconFilename project "ios" ("icon-" +:+ size) in
       output +:+
       (if negb (String.eqb filename EmptyString)
        then "<icon src=" +:+ dquote +:+ filename +:+ dquote +:+
             " width=" +:+ dquote +:+ size +:+ dquote +:+
             " height=" +:+ dquote +:+ size +:+ dquote +:+ " />" +:+ newline
        else EmptyString))
    sizes EmptyString.

Definition ExportCordovaFiles (project : Project) (exportDir : string)
  : Method bool :=
  gdjsRoot ← get_gdjsRoot;
  template ← fs_ReadFile (gdjsRoot +:+ "/Runtime/Cordova/config.xml");
  let str :=
    template
      .FindAndReplace("GDJS_PROJECTNAME", ToEscapedXMLString (GetName project))
      .FindAndReplace("GDJS_PACKAGENAME",
                      ToEscapedXMLString (GetPackageName project))
      .FindAndReplace("GDJS_ORIENTATION", GetOrientation project)
      .FindAndReplace("GDJS_PROJECTVERSION", GetVersion project)
      .FindAndReplace("<!-- GDJS_ICONS_ANDROID -->", makeIconsAndroid project)
      .FindAndReplace("<!-- GDJS_ICONS_IOS -->", makeIconsIos project) in
  let str :=
    if negb (String.eqb (GetAdMobAppId project) EmptyString)
    then
      str.FindAndReplace("<!-- GDJS_ADMOB_PLUGIN_AND_APPLICATION_ID -->",
                         "<plugin name=" +:+ dquote +:+ "cordova-plugin-admob-free" +:+
                         dquote +:+ " spec=" +:+ dquote +:+ "~0.21.0" +:+ dquote +:+
                         ">" +:+ newline +:+
                         tab +:+ tab +:+ "<variable name=" +:+ dquote +:+
                         "ADMOB_APP_ID" +:+ dquote +:+ " value=" +:+ dquote +:+
                         GetAdMobAppId project +:+
                         dquote +:+ " />" +:+ newline +:+
                         tab +:+ "</plugin>")
    else str in
  written ← fs_WriteToFile (exportDir +:+ "/config.xml") str;
  if negb written
  then set_lastError "Unable to write Cordova config.xml file.";; mret false
  else
    let jsonName := ToJSON (GetName project) in
    let jsonAuthor := ToJSON (GetAuthor project) in
    let jsonVersion := ToJSON (GetVersion project) in
    let jsonMangledName :=
      ToJSON ((LowerCase (GetMangledSceneName (GetName project)))
                .FindAndReplace(" ", "-")) in
    template ← fs_ReadFile (gdjsRoot +:+ "/Runtime/Cordova/package.json");
    let str :=
      template
        .FindAndReplace(dquote +:+ "GDJS_GAME_NAME" +:+ dquote, jsonName)
        .FindAndReplace(dquote +:+ "GDJS_GAME_AUTHOR" +:+ dquote, jsonAuthor)
        .FindAndReplace(dquote +:+ "GDJS_GAME_VERSION" +:+ dquote, jsonVersion)
        .FindAndReplace(dquote +:+ "GDJS_GAME_MANGLED_NAME" +:+ dquote,
                        jsonMangledName) in
    written ← fs_WriteToFile (exportDir +:+ "/package.json") str;
    if negb written
    then set_lastError "Unable to write Cordova package.json file.";; mret false
    else mret true.

(** *** What the exported files hold *)

(** The script element of the index file for a source. *)
Definition scriptTag (scriptSrc : string) : string :=
  tab +:+ "<script src=" +:+ dquote +:+ scriptSrc +:+
  dquote +:+ " crossorigin=" +:+ dquote +:+ "anonymous" +:+ dquote +:+
  "></script>" +:+ newline.

(** The source of the script element of an include file on a file system,
    [None] when the include file gets no script element. *)
Definition scriptSrcOf (fileSystem : FS) (exportDir it : string) : option string :=
  if IsAbsolute it then Some it
  else if FileExists (exportDir +:+ "/" +:+ it) fileSystem
       then Some (MakeRelative (exportDir +:+ "/" +:+ it) exportDir)
       else None.

(** The path that takes the place of an include file on a file system. *)
Definition exportedInclude (gdjsRoot : string) (fileSystem : FS) (include : string)
  : string :=
  if IsAbsolute include
  then if FileExists include fileSystem then FileNameFrom include else include
  else if FileExists (gdjsRoot +:+ "/Runtime/" +:+ include) fileSystem
       then MakeRelative (gdjsRoot +:+ "/Runtime/" +:+ include)
                         (gdjsRoot +:+ "/Runtime/")
       else include.

(** The file that ExportIncludesAndLibs looks for. *)
Definition includeSource (gdjsRoot include : string) : string :=
  if IsAbsolute include then include else gdjsRoot +:+ "/Runtime/" +:+ include.

(** The entry of an include file in project.json. *)
Definition includeFileEntry (file : string) : string :=
  dquote +:+ "src/" +:+ file +:+ dquote +:+ newline.

(** A member function that, when it returns false, has recorded one of
    [messages] as the last error, and that otherwise leaves the last error
    as it was; it never changes the directories of the object. *)
Definition reports (messages : list string) (method : Method bool) : Prop :=
  forall this,
    gdjsRoot (snd (method this)) = gdjsRoot this
    /\ codeOutputDir (snd (method this)) = codeOutputDir this
    /\ (fst (method this) = true -> lastError (snd (method this)) = lastError this)
    /\ (fst (method this) = false -> In (lastError (snd (method this))) messages).

(** Runs the calls of a member function that are written in the goal. *)
Ltac run_method :=
  unfold mbind, mret, Method_bind, Method_mret, fs_MkDir, fs_DirExists,
    fs_FileExists, fs_ReadFile, fs_WriteToFile, fs_CopyFile, onFileSystem,
    get_gdjsRoot, set_lastError;
  cbn [fst snd fs gdjsRoot codeOutputDir lastError].

Lemma concat_separated (sep x : string) (xs : list string) :
  String.concat sep (x :: xs) =
  x +:+ String.concat EmptyString (map (String.append sep) xs).
Proof.
  revert x. induction xs as [|y xs IH]; intros x.
  - cbn. symmetry. apply append_nil_r.
  - change (String.concat sep (x :: y :: xs))
      with (x +:+ sep +:+ String.concat sep (y :: xs)).
    rewrite IH. cbn [map]. rewrite BehaviorCodeGenerator.concat_cons.
    rewrite append_assoc. reflexivity.
Qed.

Lemma concat_found {A} (found : A -> bool) (text : A -> string) (l : list A) :
  String.concat EmptyString
    (map (fun x => if found x then text x else EmptyString) l) =
  String.concat EmptyString (map text (List.filter found l)).
Proof.
  induction l as [|x l IH]; [reflexivity|].
  cbn [map List.filter]. rewrite BehaviorCodeGenerator.concat_cons, IH.
  destruct (found x); [|apply append_nil_l].
  cbn [map]. rewrite BehaviorCodeGenerator.concat_cons. reflexivity.
Qed.

Lemma filter_none {A} (found : A -> bool) (l : list A) :
  (forall x, found x = false) -> List.filter found l = [].
Proof.
  intros Hnone. induction l as [|x l IH]; [reflexivity|].
  cbn [List.filter]. rewrite Hnone. exact IH.
Qed.

Lemma getIconFilename_www project platform name :
  getIconFilename project platform name =
  (if String.eqb (GetIconFile project platform name) EmptyString then EmptyString
   else "www/" +:+ GetIconFile project platform name)
  /\ String.eqb (getIconFilename project platform name) EmptyString =
     String.eqb (GetIconFile project platform name) EmptyString.
Proof.
  unfold getIconFilename.
  destruct (String.eqb (GetIconFile project platform name) EmptyString);
    split; reflexivity.
Qed.

Lemma codeFilesIncludes_from_found exportDir includesFiles codeFilesIncludes this :
  codeFilesIncludes_from exportDir includesFiles codeFilesIncludes this =
  (codeFilesIncludes +:+
   String.concat EmptyString
     (map scriptTag (omap (scriptSrcOf (fs this) exportDir) includesFiles)),
   this).
Proof.
  revert codeFilesIncludes.
  induction includesFiles as [|it rest IH]; intros codeFilesIncludes.
  - cbn. rewrite append_nil_r. reflexivity.
  - cbn [codeFilesIncludes_from omap list_omap]. unfold scriptSrcOf at 1.
    destruct (IsAbsolute it).
    + rewrite IH. cbn [map]. rewrite BehaviorCodeGenerator.concat_cons, append_assoc.
      reflexivity.
    + run_method. destruct (FileExists _ (fs this)); cbn [negb].
      * rewrite IH. cbn [map].
        rewrite BehaviorCodeGenerator.concat_cons, append_assoc. reflexivity.
      * apply IH.
Qed.

Lemma exportInclude_run include exportDir this :
  let exported := exportInclude include exportDir this in
  fst exported = exportedInclude (gdjsRoot this) (fs this) include
  /\ gdjsRoot (snd exported) = gdjsRoot this
  /\ codeOutputDir (snd exported) = codeOutputDir this
  /\ lastError (snd exported) = lastError this
  /\ (FileExists (includeSource (gdjsRoot this) include) (fs this) = false ->
      exported = (include, this)).
Proof.
  unfold exportInclude, exportedInclude, includeSource.
  destruct (IsAbsolute include); cbn [negb]; run_method.
  - destruct (FileExists include (fs this)).
    + destruct (CopyFile _ _ _) as [copied fileSystem]. cbn.
      repeat split; try reflexivity. discriminate.
    + cbn. repeat split; reflexivity.
  - destruct (FileExists _ (fs this)).
    + destruct (DirExists _ _); cbn [negb fst snd fs];
        destruct (CopyFile _ _ _) as [copied fileSystem]; cbn;
        repeat split; try reflexivity; discriminate.
    + cbn. repeat split; reflexivity.
Qed.

Lemma ExportIncludesAndLibs_from_cons include rest exportDir this :
  let first := exportInclude include exportDir this in
  ExportIncludesAndLibs_from (include :: rest) exportDir this =
  (fst first :: fst (ExportIncludesAndLibs_from rest exportDir (snd first)),
   snd (ExportIncludesAndLibs_from rest exportDir (snd first))).
Proof.
  intros first. cbn [ExportIncludesAndLibs_from]. run_method. fold first.
  destruct first as [exported this']. cbn [fst snd].
  destruct (ExportIncludesAndLibs_from rest exportDir this'). reflexivity.
Qed.

Lemma ExportIncludesAndLibs_from_kept includesFiles exportDir this :
  let exported := ExportIncludesAndLibs_from includesFiles exportDir this in
  length (fst exported) = length includesFiles
  /\ gdjsRoot (snd exported) = gdjsRoot this
  /\ codeOutputDir (snd exported) = codeOutputDir this
  /\ lastError (snd exported) = lastError this.
Proof.
  revert this. induction includesFiles as [|include rest IH]; intros this.
  - cbn. auto.
  - cbn zeta. rewrite ExportIncludesAndLibs_from_cons. cbn zeta. cbn [fst snd length].
    destruct (exportInclude_run include exportDir this) as (_ & Hr & Hc & He & _).
    destruct (IH (snd (exportInclude include exportDir this))) as (Hl & Hr' & Hc' & He').
    cbn zeta in *. rewrite Hl, Hr', Hc', He'. auto.
Qed.

Lemma ExportIncludesAndLibs_from_lookup includesFiles exportDir this i include :
  includesFiles !! i = Some include ->
  fst (ExportIncludesAndLibs_from includesFiles exportDir this) !! i =
  Some (exportedInclude (gdjsRoot this)
          (fs (snd (ExportIncludesAndLibs_from (take i includesFiles) exportDir this)))
          include).
Proof.
  revert this i. induction includesFiles as [|first rest IH]; intros this i Hi.
  - discriminate.
  - rewrite ExportIncludesAndLibs_from_cons. cbn zeta. cbn [fst].
    destruct (exportInclude_run first exportDir this) as (Hx & Hr & _).
    destruct i as [|i].
    + cbn in Hi. injection Hi as ->. cbn. rewrite Hx. reflexivity.
    + cbn in Hi. cbn [take firstn]. rewrite ExportIncludesAndLibs_from_cons.
      cbn zeta. cbn [snd]. change ((?x :: ?l) !! S i) with (l !! i).
      rewrite (IH _ i Hi). cbn zeta in Hr. rewrite Hr. reflexivity.
Qed.

Lemma ExportIncludesAndLibs_from_missing includesFiles exportDir this :
  (forall include,
     In include includesFiles ->
     FileExists (includeSource (gdjsRoot this) include) (fs this) = false) ->
  ExportIncludesAndLibs_from includesFiles exportDir this = (includesFiles, this).
Proof.
  induction includesFiles as [|include rest IH]; intros Hmissing; [reflexivity|].
  rewrite ExportIncludesAndLibs_from_cons. cbn zeta.
  destruct (exportInclude_run include exportDir this) as (_ & _ & _ & _ & Hsame).
  cbn zeta in Hsame. rewrite Hsame by (apply Hmissing; left; reflexivity).
  cbn [fst snd]. rewrite IH by (intros x Hx; apply Hmissing; right; exact Hx).
  reflexivity.
Qed.

Lemma includeFilesStr_from_rest exportDir includesFiles includeFilesStr this :
  includeFilesStr_from exportDir includesFiles includeFilesStr false this =
  (includeFilesStr +:+
   String.concat EmptyString
     (map (String.append ", ")
        (map includeFileEntry
           (List.filter
              (fun file => FileExists (exportDir +:+ "/src/" +:+ file) (fs this))
              includesFiles))),
   this).
Proof.
  revert includeFilesStr.
  induction includesFiles as [|file rest IH]; intros includeFilesStr.
  - cbn. rewrite append_nil_r. reflexivity.
  - cbn [includeFilesStr_from List.filter]. run_method.
    destruct (FileExists _ (fs this)); cbn [negb].
    + cbn zeta. rewrite IH. cbn [map].
      rewrite BehaviorCodeGenerator.concat_cons, append_assoc. reflexivity.
    + apply IH.
Qed.

Lemma includeFilesStr_from_found exportDir includesFiles this :
  includeFilesStr_from exportDir includesFiles EmptyString true this =
  (String.concat ", "
     (map includeFileEntry
        (List.filter
           (fun file => FileExists (exportDir +:+ "/src/" +:+ file) (fs this))
           includesFiles)),
   this).
Proof.
  induction includesFiles as [|file rest IH]; [reflexivity|].
  cbn [includeFilesStr_from List.filter]. run_method.
  destruct (FileExists _ (fs this)); cbn [negb].
  - cbn zeta. cbn [map]. rewrite concat_separated, includeFilesStr_from_rest.
    rewrite !append_nil_l. reflexivity.
  - exact IH.
Qed.

Lemma CompleteIndexFile_run str exportDir includesFiles additionalSpec this :
  CompleteIndexFile str exportDir includesFiles additionalSpec this =
  ((true,
    str.FindAndReplace("/* GDJS_CUSTOM_STYLE */", EmptyString)
       .FindAndReplace("<!-- GDJS_CUSTOM_HTML -->", EmptyString)
       .FindAndReplace("<!-- GDJS_CODE_FILES -->",
                       String.concat EmptyString
                         (map scriptTag
                            (omap (scriptSrcOf (fs this) exportDir) includesFiles)))
       .FindAndReplace("{}/*GDJS_ADDITIONAL_SPEC*/",
                       if String.eqb additionalSpec EmptyString
                       then "{}" else additionalSpec)),
   this).
Proof.
  unfold CompleteIndexFile. run_method.
  rewrite codeFilesIncludes_from_found, append_nil_l. reflexivity.
Qed.

(** Closes the cases of a member function that has been run. *)
Ltac close_cases :=
  repeat split; intros;
  first [reflexivity | discriminate | congruence | solve [cbn [In]; auto 8]].

(** *** The properties of the exported files *)

(** X12.  CompleteIndexFile always returns true and leaves the file system
    as it is.  The text it gives is the index file with the two custom
    markers emptied, the marker of the code files replaced by one script
    element for every include file that is absolute or that is found in the
    export directory, in the order of the include files, the others being
    left out, and the marker of the additional spec replaced by the spec,
    [{}] when the spec is empty.  An index file that holds none of the four
    markers is given back as it is. *)
Theorem CompleteIndexFile_lists_the_scripts_found
  (str exportDir : string) (includesFiles : list string) (additionalSpec : string)
  (this : ExporterHelper FS) :
  CompleteIndexFile str exportDir includesFiles additionalSpec this =
  ((true,
    str.FindAndReplace("/* GDJS_CUSTOM_STYLE */", EmptyString)
       .FindAndReplace("<!-- GDJS_CUSTOM_HTML -->", EmptyString)
       .FindAndReplace("<!-- GDJS_CODE_FILES -->",
                       String.concat EmptyString
                         (map scriptTag
                            (omap (scriptSrcOf (fs this) exportDir) includesFiles)))
       .FindAndReplace("{}/*GDJS_ADDITIONAL_SPEC*/",
                       if String.eqb additionalSpec EmptyString
                       then "{}" else additionalSpec)),
   this)
  /\ (token_free [ "/* GDJS_CUSTOM_STYLE */"; "<!-- GDJS_CUSTOM_HTML -->";
                   "<!-- GDJS_CODE_FILES -->"; "{}/*GDJS_ADDITIONAL_SPEC*/" ] str
      = true ->
      CompleteIndexFile str exportDir includesFiles additionalSpec this =
      ((true, str), this)).
Proof.
  pose proof (CompleteIndexFile_run str exportDir includesFiles additionalSpec this)
    as Hrun.
  split; [exact Hrun|].
  intros Hfree. rewrite Hrun. do 2 f_equal.
  as_chain. apply chain_token_free. exact Hfree.
Qed.

(** X13.  ExportIncludesAndLibs always returns true, records no error and
    gives as many include files as it was given: the include file at every
    place is replaced by the path it has in the export, on the file system
    as the include files before it have left it.  A relative include file
    found in the runtime directory becomes its path relative to that
    directory, an absolute one that is found becomes its file name, and one
    that is not found stays as it is. *)
Theorem ExportIncludesAndLibs_keeps_every_include_in_its_place
  (includesFiles : list string) (exportDir : string) (minify : bool)
  (this : ExporterHelper FS) :
  let exported := ExportIncludesAndLibs includesFiles exportDir minify this in
  fst (fst exported) = true
  /\ length (snd (fst exported)) = length includesFiles
  /\ (forall i include,
        includesFiles !! i = Some include ->
        snd (fst exported) !! i =
        Some (exportedInclude (gdjsRoot this)
                (fs (snd (ExportIncludesAndLibs (take i includesFiles) exportDir
                            minify this)))
                include))
  /\ lastError (snd exported) = lastError this.
Proof.
  assert (forall l,
            ExportIncludesAndLibs l exportDir minify this =
            ((true, fst (ExportIncludesAndLibs_from l exportDir this)),
             snd (ExportIncludesAndLibs_from l exportDir this))) as Hrun.
  { intros l. unfold ExportIncludesAndLibs. run_method.
    destruct (ExportIncludesAndLibs_from l exportDir this). reflexivity. }
  cbn zeta. rewrite Hrun. cbn [fst snd].
  destruct (ExportIncludesAndLibs_from_kept includesFiles exportDir this)
    as (Hlength & _ & _ & Herror).
  split; [reflexivity|]. split; [exact Hlength|]. split; [|exact Herror].
  intros i include Hi. rewrite Hrun. cbn [snd].
  apply ExportIncludesAndLibs_from_lookup, Hi.
Qed.

(** X14.  When none of the include files is found, the relative ones in the
    runtime directory and the absolute ones where they say, the call of
    ExportIncludesAndLibs returns true all the same, gives the include files
    back as they are and changes nothing in the file system. *)
Theorem ExportIncludesAndLibs_leaves_what_it_does_not_find
  (includesFiles : list string) (exportDir : string) (minify : bool)
  (this : ExporterHelper FS) :
  (forall include,
     In include includesFiles ->
     FileExists (includeSource (gdjsRoot this) include) (fs this) = false) ->
  ExportIncludesAndLibs includesFiles exportDir minify this =
  ((true, includesFiles), this).
Proof.
  intros Hmissing. unfold ExportIncludesAndLibs. run_method.
  rewrite ExportIncludesAndLibs_from_missing by exact Hmissing. reflexivity.
Qed.

(** X15.  The include files written in project.json for Cocos2d-JS are those
    found in the src directory of the export, in their order, each between
    quotes and followed by a line feed, with a comma and a space between two
    of them: no comma comes before the first file written, even when include
    files before it were not found, and nothing is written when none is
    found. *)
Theorem project_json_lists_the_files_found
  (exportDir : string) (includesFiles : list string) (this : ExporterHelper FS) :
  let found :=
    List.filter (fun file => FileExists (exportDir +:+ "/src/" +:+ file) (fs this))
      includesFiles in
  let listed := includeFilesStr_from exportDir includesFiles EmptyString true this in
  listed = (String.concat ", " (map includeFileEntry found), this)
  /\ (found = [] -> fst listed = EmptyString)
  /\ (forall file others,
        found = file :: others ->
        fst listed =
        includeFileEntry file +:+
        String.concat EmptyString
          (map (fun other => ", " +:+ includeFileEntry other) others)).
Proof.
  intros found listed. subst listed. rewrite includeFilesStr_from_found. fold found.
  split; [reflexivity|]. split.
  - intros ->. reflexivity.
  - intros file others ->. cbn [fst map]. rewrite concat_separated, List.map_map.
    reflexivity.
Qed.

(** X16.  ExportCocos2dFiles copies main.js and the engine, writes
    index.html, with no script element, and then project.json, each on the
    file system that the step before has left.  It returns true exactly when
    the four steps succeed; at the first step that fails it records the
    error of that step and does nothing more to the file system.  When it
    returns true the last error is as it was. *)
Theorem ExportCocos2dFiles_stops_at_the_first_failure
  (project : Project) (exportDir : string) (debugMode : bool)
  (includesFiles : list string) (this : ExporterHelper FS) :
  let mainCopied :=
    CopyFile (gdjsRoot this +:+ "/Runtime/Cocos2d/main.js")
             (exportDir +:+ "/main.js") (fs this) in
  let engineCopied :=
    CopyFile (gdjsRoot this +:+ "/Runtime/Cocos2d/cocos2d-js-v3.10.js")
             (exportDir +:+ "/cocos2d-js-v3.10.js") (snd mainCopied) in
  let indexWritten :=
    WriteToFile (exportDir +:+ "/index.html")
      ((ReadFile (gdjsRoot this +:+ "/Runtime/Cocos2d/index.html") (snd engineCopied))
         .FindAndReplace("/* GDJS_CUSTOM_STYLE */", EmptyString)
         .FindAndReplace("<!-- GDJS_CUSTOM_HTML -->", EmptyString)
         .FindAndReplace("<!-- GDJS_CODE_FILES -->", EmptyString)
         .FindAndReplace("{}/*GDJS_ADDITIONAL_SPEC*/", "{}"))
      (snd engineCopied) in
  let projectWritten :=
    WriteToFile (exportDir +:+ "/project.json")
      ((ReadFile (gdjsRoot this +:+ "/Runtime/Cocos2d/project.json") (snd indexWritten))
         .FindAndReplace("// GDJS_INCLUDE_FILES",
                         String.concat ", "
                           (map includeFileEntry
                              (List.filter
                                 (fun file =>
                                    FileExists (exportDir +:+ "/src/" +:+ file)
                                      (snd indexWritten))
                                 includesFiles)))
         .FindAndReplace("/*GDJS_SHOW_FPS*/", if debugMode then "true" else "false"))
      (snd indexWritten) in
  let exported := ExportCocos2dFiles project exportDir debugMode includesFiles this in
  fst exported =
    fst mainCopied && fst engineCopied && fst indexWritten && fst projectWritten
  /\ (fst mainCopied = false ->
      fs (snd exported) = snd mainCopied
      /\ lastError (snd exported) = "Unable to write Cocos2d main.js file.")
  /\ (fst mainCopied = true -> fst engineCopied = false ->
      fs (snd exported) = snd engineCopied
      /\ lastError (snd exported) =
         "Unable to write Cocos2d cocos2d-js-v3.10.js file.")
  /\ (fst mainCopied = true -> fst engineCopied = true -> fst indexWritten = false ->
      fs (snd exported) = snd indexWritten
      /\ lastError (snd exported) = "Unable to write Cocos2d-JS index.html file.")
  /\ (fst mainCopied = true -> fst engineCopied = true -> fst indexWritten = true ->
      fs (snd exported) = snd projectWritten
      /\ lastError (snd exported) =
         (if fst projectWritten then lastError this
          else "Unable to write Cocos2d-JS project.json file.")).
Proof.
  cbv zeta. unfold ExportCocos2dFiles. run_method.
  destruct (CopyFile _ _ (fs this)) as [[] afterMain];
    cbn [fst snd negb andb fs gdjsRoot codeOutputDir lastError]; [|close_cases].
  destruct (CopyFile _ _ afterMain) as [[] afterEngine];
    cbn [fst snd negb andb fs gdjsRoot codeOutputDir lastError]; [|close_cases].
  rewrite CompleteIndexFile_run. cbn [fst snd negb fs omap list_omap map].
  change (String.concat EmptyString []) with EmptyString.
  cbn [String.eqb fs gdjsRoot codeOutputDir lastError].
  destruct (WriteToFile _ _ afterEngine) as [[] afterIndex];
    cbn [fst snd negb andb fs gdjsRoot codeOutputDir lastError]; [|close_cases].
  rewrite includeFilesStr_from_found.
  cbn [fst snd negb andb fs gdjsRoot codeOutputDir lastError].
  destruct (WriteToFile _ _ afterIndex) as [[] afterProject];
    cbn [fst snd negb andb fs gdjsRoot codeOutputDir lastError]; close_cases.
Qed.


(** X18.  The icons written in config.xml for Cordova: one icon element
    for every size for which the project has an icon file, in the order of
    the sizes, its source being the file under www; a size without a file
    gives nothing, and a project without icons gives no icon element at
    all. *)
Theorem cordova_icons_for_the_sizes_with_a_file (project : Project) :
  let android (size : string * string) :=
    GetIconFile project "android" ("icon-" +:+ fst size) in
  let ios (size : string) := GetIconFile project "ios" ("icon-" +:+ size) in
  makeIconsAndroid project =
    String.concat EmptyString
      (map (fun size =>
              "<icon src=" +:+ dquote +:+ ("www/" +:+ android size) +:+ dquote +:+
              " density=" +:+ dquote +:+ snd size +:+ dquote +:+ " />" +:+ newline)
         (List.filter (fun size => negb (String.eqb (android size) EmptyString))
            [ ("36", "ldpi"); ("48", "mdpi"); ("72", "hdpi"); ("96", "xhdpi");
              ("144", "xxhdpi"); ("192", "xxxhdpi") ]))
  /\ makeIconsIos project =
     String.concat EmptyString
       (map (fun size =>
               "<icon src=" +:+ dquote +:+ ("www/" +:+ ios size) +:+ dquote +:+
               " width=" +:+ dquote +:+ size +:+ dquote +:+
               " height=" +:+ dquote +:+ size +:+ dquote +:+ " />" +:+ newline)
          (List.filter (fun size => negb (String.eqb (ios size) EmptyString))
             [ "180"; "60"; "120"; "76"; "152"; "40"; "80"; "57"; "114"; "72";
               "144"; "167"; "29"; "58"; "50"; "100" ]))
  /\ ((forall platform name, GetIconFile project platform name = EmptyString) ->
      makeIconsAndroid project = EmptyString
      /\ makeIconsIos project = EmptyString).
Proof.
  intros android ios.
  assert (makeIconsAndroid project =
          String.concat EmptyString
            (map (fun size =>
                    "<icon src=" +:+ dquote +:+ ("www/" +:+ android size) +:+
                    dquote +:+ " density=" +:+ dquote +:+ snd size +:+ dquote +:+
                    " />" +:+ newline)
               (List.filter
                  (fun size => negb (String.eqb (android size) EmptyString))
                  [ ("36", "ldpi"); ("48", "mdpi"); ("72", "hdpi"); ("96", "xhdpi");
                    ("144", "xxhdpi"); ("192", "xxxhdpi") ]))) as Handroid.
  { unfold makeIconsAndroid. cbv zeta.
    rewrite BehaviorCodeGenerator.append_loop, append_nil_l, <- concat_found.
    apply (f_equal (String.concat EmptyString)). apply List.map_ext. intros size.
    destruct (getIconFilename_www project "android" ("icon-" +:+ fst size))
      as [Hname Hempty].
    rewrite Hempty, Hname. fold (android size).
    destruct (String.eqb (android size) EmptyString); reflexivity. }
  assert (makeIconsIos project =
          String.concat EmptyString
            (map (fun size =>
                    "<icon src=" +:+ dquote +:+ ("www/" +:+ ios size) +:+ dquote +:+
                    " width=" +:+ dquote +:+ size +:+ dquote +:+
                    " height=" +:+ dquote +:+ size +:+ dquote +:+ " />" +:+ newline)
               (List.filter (fun size => negb (String.eqb (ios size) EmptyString))
                  [ "180"; "60"; "120"; "76"; "152"; "40"; "80"; "57"; "114"; "72";
                    "144"; "167"; "29"; "58"; "50"; "100" ]))) as Hios.
  { unfold makeIconsIos. cbv zeta.
    rewrite BehaviorCodeGenerator.append_loop, append_nil_l, <- concat_found.
    apply (f_equal (String.concat EmptyString)). apply List.map_ext. intros size.
    destruct (getIconFilename_www project "ios" ("icon-" +:+ size))
      as [Hname Hempty].
    rewrite Hempty, Hname. fold (ios size).
    destruct (String.eqb (ios size) EmptyString); reflexivity. }
  split; [exact Handroid|]. split; [exact Hios|].
  intros Hnone. rewrite Handroid, Hios.
  rewrite !filter_none; [split; reflexivity| |].
  - intros size. unfold ios. rewrite Hnone. reflexivity.
  - intros size. unfold android. rewrite Hnone. reflexivity.
Qed.

(** X19.  The exports of the index file and of the files for Cocos2d-JS,
    Facebook Instant Games, Electron and Cordova keep the directories of the
    exporter; when they return true they leave the last error as it was, and
    when they return false the last error is one of the messages of the
    function.  The message on the completion of the Cocos2d-JS index file is
    not among them: it is never recorded. *)
Theorem a_failed_export_records_its_error
  (project : Project) (source exportDir : string) (debugMode : bool)
  (includesFiles : list string) (additionalSpec : string) :
  reports [ "Unable to write index file." ]
    (ExportPixiIndexFile project source exportDir includesFiles additionalSpec)
  /\ reports [ "Unable to write Cocos2d main.js file.";
               "Unable to write Cocos2d cocos2d-js-v3.10.js file.";
               "Unable to write Cocos2d-JS index.html file.";
               "Unable to write Cocos2d-JS project.json file." ]
       (ExportCocos2dFiles project exportDir debugMode includesFiles)
  /\ reports [ "Unable to write Facebook Instant Games fbapp-config.json file." ]
       (ExportFacebookInstantGamesFiles project exportDir)
  /\ reports [ "Unable to write Electron package.json file.";
               "Unable to write Electron main.js file." ]
       (ExportElectronFiles project exportDir)
  /\ reports [ "Unable to write Cordova config.xml file.";
               "Unable to write Cordova package.json file." ]
       (ExportCordovaFiles project exportDir).
Proof.
  unfold reports. split; [|split; [|split; [|split]]]; intros this.
  - unfold ExportPixiIndexFile. run_method. rewrite CompleteIndexFile_run.
    cbn [fst snd negb fs gdjsRoot codeOutputDir lastError].
    destruct (WriteToFile _ _ (fs this)) as [[] afterIndex]; cbn; close_cases.
  - unfold ExportCocos2dFiles. run_method.
    destruct (CopyFile _ _ (fs this)) as [[] afterMain];
      cbn [fst snd negb andb fs gdjsRoot codeOutputDir lastError];
      [|cbn; close_cases].
    destruct (CopyFile _ _ afterMain) as [[] afterEngine];
      cbn [fst snd negb andb fs gdjsRoot codeOutputDir lastError];
      [|cbn; close_cases].
    rewrite CompleteIndexFile_run.
    cbn [fst snd negb fs gdjsRoot codeOutputDir lastError].
    destruct (WriteToFile _ _ afterEngine) as [[] afterIndex];
      cbn [fst snd negb andb fs gdjsRoot codeOutputDir lastError];
      [|cbn; close_cases].
    rewrite includeFilesStr_from_found.
    cbn [fst snd negb andb fs gdjsRoot codeOutputDir lastError].
    destruct (WriteToFile _ _ afterIndex) as [[] afterProject];
      cbn; close_cases.
  - unfold ExportFacebookInstantGamesFiles. run_method.
    destruct (WriteToFile _ _ (fs this)) as [[] afterConfig]; cbn; close_cases.
  - unfold ExportElectronFiles. run_method.
    destruct (WriteToFile _ _ (fs this)) as [[] afterPackage];
      cbn [fst snd negb andb fs gdjsRoot codeOutputDir lastError];
      [|cbn; close_cases].
    destruct (WriteToFile _ _ afterPackage) as [[] afterMain];
      cbn [fst snd negb andb fs gdjsRoot codeOutputDir lastError];
      [|cbn; close_cases].
    destruct (FileExists _ _);
      cbn [fst snd negb andb fs gdjsRoot codeOutputDir lastError].
    + destruct (CopyFile _ _ _) as [copied afterIcon]; cbn; close_cases.
    + cbn; close_cases.
  - unfold ExportCordovaFiles. run_method.
    destruct (WriteToFile _ _ (fs this)) as [[] afterConfig];
      cbn [fst snd negb andb fs gdjsRoot codeOutputDir lastError];
      [|cbn; close_cases].
    destruct (WriteToFile _ _ afterConfig) as [[] afterPackage];
      cbn; close_cases.
Qed.

End Exporter.

(** *** The exporter at work *)

#[local] Existing Instance MemoryFileSystem_AbstractFileSystem.

(** An index file without markers is completed to itself. *)
Lemma index_without_markers_example :
  CompleteIndexFile "<html></html>" "/export" [ "gd.js" ] EmptyString gameExporter =
  ((true, "<html></html>"), gameExporter).
Proof.
  apply (proj2 (CompleteIndexFile_lists_the_scripts_found
                  "<html></html>" "/export" [ "gd.js" ] EmptyString gameExporter)).
  vm_compute. reflexivity.
Defined.

(** Two include files that are nowhere are left as they are. *)
Lemma nothing_found_example :
  ExportIncludesAndLibs [ "missing.js"; "/tmp/code/code7.js" ] "/export" false
    gameExporter =
  ((true, [ "missing.js"; "/tmp/code/code7.js" ]), gameExporter).
Proof.
  apply (ExportIncludesAndLibs_leaves_what_it_does_not_find
           [ "missing.js"; "/tmp/code/code7.js" ] "/export" false gameExporter).
  intros include [<-|[<-|[]]]; vm_compute; reflexivity.
Defined.

(** The first include file is not found: the second one is written without a
    comma before it. *)
Lemma project_json_example :
  fst (includeFilesStr_from "/export" [ "missing.js"; "gd.js"; "code0.js" ]
         EmptyString true gameExporter) =
  includeFileEntry "gd.js" +:+
  String.concat EmptyString
    (map (fun other => ", " +:+ includeFileEntry other) [ "code0.js" ]).
Proof.
  apply (proj2 (proj2 (project_json_lists_the_files_found
                         "/export" [ "missing.js"; "gd.js"; "code0.js" ]
                         gameExporter))).
  vm_compute. reflexivity.
Defined.

(** The export for Cocos2d-JS stops at index.html when it cannot be
    written. *)
Lemma cocos2d_example :
  lastError (snd (ExportCocos2dFiles game "/export" false [ "gd.js" ] lockedExporter))
  = "Unable to write Cocos2d-JS index.html file.".
Proof.
  refine (proj2 (proj1 (proj2 (proj2 (proj2
            (ExportCocos2dFiles_stops_at_the_first_failure
               game "/export" false [ "gd.js" ] lockedExporter)))) _ _ _));
    vm_compute; reflexivity.
Defined.

(** A game without icons has no icon element. *)
Lemma cordova_icons_example :
  makeIconsAndroid game = EmptyString /\ makeIconsIos game = EmptyString.
Proof.
  apply (proj2 (proj2 (cordova_icons_for_the_sizes_with_a_file game))).
  reflexivity.
Defined.


End ExporterHelperFiles.
